(** * go-otel-sample: a shallow embedding of the task service

    The Go packages [model], [repository], [telemetry], [handler] and
    [config] are embedded as Rocq modules of the same names, and [main]
    of [cmd/server] as the module [server].  Stateful code is written in
    a small state monad; the store is a [gmap] from ids to records;
    [float64] values are Rocq's primitive binary64 floats.

    What the program takes from outside (the clock behind [time.Now], the
    generator behind [uuid.New], the decoding of [encoding/json], the
    success or failure of the calls into gRPC and the OpenTelemetry SDK,
    the signal that ends the process) is an explicit input of the
    embedding.  Spans and log records of the request path are left out:
    no property below is about them. *)

From Stdlib Require Import Floats.
From stdpp Require Import gmap strings list.

Set Default Proof Using "Type".
Set Warnings "-inexact-float".
Local Open Scope Z_scope.

(* ================================================================== *)
(** ** A state monad for sequential Go code *)

Definition State (S A : Type) : Type := S → A * S.

Definition ret {S A} (a : A) : State S A := λ s, (a, s).
Definition bind {S A B} (m : State S A) (k : A → State S B) : State S B :=
  λ s, let (a, s') := m s in k a s'.
Definition get {S} : State S S := λ s, (s, s).
Definition put {S} (s : S) : State S unit := λ _, (tt, s).
Definition modify {S} (f : S → S) : State S unit := λ s, (tt, f s).

(** The instances give Go-like sequencing with stdpp's notation:
    [x ← c; k] runs [c], binds its result to [x] and continues with [k];
    [c;; k] drops the result. *)
#[global] Instance State_ret {S} : MRet (State S) := λ A, ret.
#[global] Instance State_bind {S} : MBind (State S) := λ A B k m, bind m k.

(** Run a computation of a component inside a larger state. *)
Definition zoom {S T A} (proj : S → T) (upd : T → S → S) (m : State T A)
  : State S A :=
  λ s, let (a, t') := m (proj s) in (a, upd t' s).

(* ================================================================== *)
(** ** The Go runtime the program reads from *)

(** [time.Time] and [time.Duration] are counted in nanoseconds. *)
Definition Time := Z.
Definition Duration := Z.
Definition Second : Duration := 1000000000.

(** The process reads two external sources: the clock and the UUID
    generator.  The k-th call of [time.Now] returns [clock k], the k-th
    call of [uuid.New] returns [uuids k]. *)
Record Runtime := mkRuntime {
  clock : nat → Time;
  ticks : nat;
  uuids : nat → string;
  drawn : nat
}.

Definition time_Now : State Runtime Time :=
  λ rt, (clock rt (ticks rt),
         mkRuntime (clock rt) (S (ticks rt)) (uuids rt) (drawn rt)).

Definition uuid_New : State Runtime string :=
  λ rt, (uuids rt (drawn rt),
         mkRuntime (clock rt) (ticks rt) (uuids rt) (S (drawn rt))).

Definition minInt64 : Z := - 2 ^ 63.
Definition maxInt64 : Z := 2 ^ 63 - 1.

(** [Time.Sub] saturates at the bounds of [Duration]. *)
Definition time_Sub (t u : Time) : Duration :=
  Z.max minInt64 (Z.min maxInt64 (t - u)).

Definition time_Since (start : Time) : State Runtime Duration :=
  now ← time_Now; ret (time_Sub now start).

(** [float64(x)] for an [int64] [x]. *)
Definition float64_of_int64 (z : Z) : float :=
  if z <? 0 then PrimFloat.opp (PrimFloat.of_uint63 (Uint63.of_Z (- z)))
  else PrimFloat.of_uint63 (Uint63.of_Z z).

(** [Duration.Seconds]: the whole seconds plus the remaining nanoseconds
    over 1e9; Go's [/] and [%] truncate towards zero. *)
Definition Seconds (d : Duration) : float :=
  let sec := Z.quot d Second in
  let nsec := Z.rem d Second in
  (float64_of_int64 sec + float64_of_int64 nsec / 1e9)%float.

(* ================================================================== *)
(** ** package model *)

Module model.

Record Task := mkTask {
  ID : string;
  Title : string;
  Description : string;
  Done : bool;
  CreatedAt : Time;
  UpdatedAt : Time
}.

Record CreateTaskRequest := mkCreateTaskRequest {
  create_Title : string;
  create_Description : string
}.

(** [Done] is a [*bool]: [None] is the nil pointer. *)
Record UpdateTaskRequest := mkUpdateTaskRequest {
  update_Title : string;
  update_Description : string;
  update_Done : option bool
}.

Record TaskError := mkTaskError { Message : string }.

Definition ErrTaskNotFound : TaskError := mkTaskError "task not found".
Definition ErrTitleRequired : TaskError := mkTaskError "title is required".

(** A non-nil value of the interface type [error]: a [TaskError], or an
    error of some other package (of which only the text is kept). *)
Inductive errval :=
| ETask (e : TaskError)
| EOther (msg : string).

(** The interface type [error]; [None] is [nil]. *)
Definition error := option errval.

Definition Error (e : errval) : string :=
  match e with
  | ETask e => Message e
  | EOther msg => msg
  end.

(** [errors.Is(err, model.ErrTaskNotFound)]: [TaskError] is a comparable
    struct, compared with [==]; the other errors wrap nothing. *)
Definition errors_Is_ErrTaskNotFound (err : errval) : bool :=
  match err with
  | ETask e => bool_decide (Message e = Message ErrTaskNotFound)
  | EOther _ => false
  end.

Definition Validate (r : CreateTaskRequest) : error :=
  if bool_decide (create_Title r = "") then Some (ETask ErrTitleRequired)
  else None.

End model.

(* ================================================================== *)
(** ** package repository *)

Module repository.
Import model.

(** The map holds one heap record per key, allocated by [Create] and
    reachable from the map only under that key, so the store is the
    finite map from ids to record contents; [Update] writing through
    the pointer is an update of the map at that key.  Every method
    holds the lock [mu] for its whole body: a method is one atomic
    transition of the store. *)
Record TaskRepository := mkRepo {
  tasks : gmap string Task
}.

Definition NewTaskRepository : TaskRepository := mkRepo ∅.

(** The state a repository method runs in. *)
Definition Sys : Type := Runtime * TaskRepository.

Definition runtime {A} (m : State Runtime A) : State Sys A :=
  zoom fst (λ rt s, (rt, s.2)) m.
Definition store {A} (m : State TaskRepository A) : State Sys A :=
  zoom snd (λ r s, (s.1, r)) m.

Definition Create (req : CreateTaskRequest) : State Sys (option Task * error) :=
  now ← runtime time_Now;
  id ← runtime uuid_New;
  let task := mkTask id (create_Title req) (create_Description req)
                     false now now in
  store (modify (λ r, mkRepo (<[ID task := task]> (tasks r))));;
  ret (Some task, None).

Definition GetByID (id : string) : State Sys (option Task * error) :=
  r ← store get;
  match tasks r !! id with
  | None => ret (None, Some (ETask ErrTaskNotFound))
  | Some task => ret (Some task, None)
  end.

(** Go leaves the iteration order of a map unspecified; the model lists
    the records in the order of [map_to_list]. *)
Definition List : State Sys (list Task * error) :=
  r ← store get;
  ret ((map_to_list (tasks r)).*2, None).

Definition Update (id : string) (req : UpdateTaskRequest)
  : State Sys (option Task * error) :=
  r ← store get;
  match tasks r !! id with
  | None => ret (None, Some (ETask ErrTaskNotFound))
  | Some task =>
      let task := if bool_decide (update_Title req ≠ "")
                  then mkTask (ID task) (update_Title req) (Description task)
                              (Done task) (CreatedAt task) (UpdatedAt task)
                  else task in
      let task := if bool_decide (update_Description req ≠ "")
                  then mkTask (ID task) (Title task) (update_Description req)
                              (Done task) (CreatedAt task) (UpdatedAt task)
                  else task in
      let task := match update_Done req with
                  | Some d => mkTask (ID task) (Title task) (Description task)
                                     d (CreatedAt task) (UpdatedAt task)
                  | None => task
                  end in
      now ← runtime time_Now;
      let task := mkTask (ID task) (Title task) (Description task)
                         (Done task) (CreatedAt task) now in
      store (modify (λ r, mkRepo (<[id := task]> (tasks r))));;
      ret (Some task, None)
  end.

Definition Delete (id : string) : State Sys error :=
  r ← store get;
  match tasks r !! id with
  | None => ret (Some (ETask ErrTaskNotFound))
  | Some _ =>
      store (modify (λ r, mkRepo (delete id (tasks r))));;
      ret None
  end.

Definition Count (r : TaskRepository) : Z := Z.of_nat (size (tasks r)).

End repository.

(* ================================================================== *)
(** ** package telemetry *)

Module telemetry.
Import model.

(** [attribute.KeyValue]: the three kinds of value the program uses. *)
Inductive Value :=
| String (s : string)
| Int (n : Z)
| Bool (b : bool).

Definition KeyValue : Type := string * Value.

(** *** Instruments

    An instrument is what the meter was asked to build: its name and
    its options.  The program never changes an instrument after
    [NewMetrics]. *)
Record Int64Counter := mkCounter {
  counter_name : string;
  counter_description : string;
  counter_unit : string
}.

Record Float64Histogram := mkHistogram {
  histogram_name : string;
  histogram_description : string;
  histogram_unit : string;
  ExplicitBucketBoundaries : list float
}.

(** [metric.Int64Callback]: what the callback passes to [o.Observe], in
    order, and the error it returns.  [S] is the state the callback
    reads at the time it is called. *)
Definition Int64Callback (S : Type) : Type := S → list Z * error.

Record Int64ObservableGauge (S : Type) := mkGauge {
  gauge_name : string;
  gauge_description : string;
  gauge_unit : string;
  gauge_callbacks : list (Int64Callback S)
}.
Arguments mkGauge {S}.
Arguments gauge_name {S}.
Arguments gauge_description {S}.
Arguments gauge_unit {S}.
Arguments gauge_callbacks {S}.

(** What a constructor of the meter returns: Go's pair of an
    instrument and an error, of which exactly one is non-nil. *)
Inductive result (A : Type) :=
| Ok (a : A)
| Err (err : errval).
Arguments Ok {A}.
Arguments Err {A}.

(** [metric.Meter].  Whether the construction of an instrument fails
    (a name the SDK rejects, a conflicting registration) is decided
    outside the program: the three fields give the error, if any, for
    a name.  A construction that does not fail returns the instrument
    with the options it was given. *)
Record Meter := mkMeter {
  Int64Counter_error : string → error;
  Float64Histogram_error : string → error;
  Int64ObservableGauge_error : string → error
}.

Definition meter_Int64Counter (meter : Meter) (name description unit : string)
  : result Int64Counter :=
  match Int64Counter_error meter name with
  | Some err => Err err
  | None => Ok (mkCounter name description unit)
  end.

Definition meter_Float64Histogram (meter : Meter)
    (name description unit : string) (boundaries : list float)
  : result Float64Histogram :=
  match Float64Histogram_error meter name with
  | Some err => Err err
  | None => Ok (mkHistogram name description unit boundaries)
  end.

Definition meter_Int64ObservableGauge {S} (meter : Meter)
    (name description unit : string) (callback : Int64Callback S)
  : result (Int64ObservableGauge S) :=
  match Int64ObservableGauge_error meter name with
  | Some err => Err err
  | None => Ok (mkGauge name description unit [callback])
  end.

(** [fmt.Errorf(msg ++ ": %w", err)] *)
Definition Errorf (msg : string) (err : errval) : errval :=
  EOther (msg +:+ ": " +:+ Error err).

Record Metrics (S : Type) := mkMetrics {
  RequestCounter : Int64Counter;
  RequestDuration : Float64Histogram;
  TasksGauge : Int64ObservableGauge S;
  taskCountFunc : S → Z
}.
Arguments mkMetrics {S}.
Arguments RequestCounter {S}.
Arguments RequestDuration {S}.
Arguments TasksGauge {S}.
Arguments taskCountFunc {S}.

(** [NewMetrics]: [m.taskCountFunc] is set once, at the allocation of
    [m], so the callback's [m.taskCountFunc()] calls the argument. *)
Definition NewMetrics {S} (meter : Meter) (taskCountFunc : S → Z)
  : option (Metrics S) * error :=
  match meter_Int64Counter meter "http_requests_total"
          "Total number of HTTP requests" "{request}" with
  | Err err => (None, Some (Errorf "failed to create request counter" err))
  | Ok requestCounter =>
  match meter_Float64Histogram meter "http_request_duration_seconds"
          "HTTP request duration in seconds" "s"
          [0.005; 0.01; 0.025; 0.05; 0.1; 0.25; 0.5; 1; 2.5; 5; 10]%float with
  | Err err =>
      (None, Some (Errorf "failed to create request duration histogram" err))
  | Ok requestDuration =>
  match meter_Int64ObservableGauge meter "tasks_total"
          "Current number of tasks in the system" "{task}"
          (λ s, ([taskCountFunc s], None)) with
  | Err err => (None, Some (Errorf "failed to create tasks gauge" err))
  | Ok tasksGauge =>
      (Some (mkMetrics requestCounter requestDuration tasksGauge taskCountFunc),
       None)
  end end end.

(** *** Measurements

    What a synchronous instrument receives: [Add] on a counter and
    [Record] on a histogram, each with the attribute set of the call. *)
Inductive Measurement :=
| Add (inst : Int64Counter) (incr : Z) (attrs : list KeyValue)
| Record_ (inst : Float64Histogram) (value : float) (attrs : list KeyValue).

(** The name of the instrument a measurement is made on. *)
Definition instrument_name (e : Measurement) : string :=
  match e with
  | Add inst _ _ => counter_name inst
  | Record_ inst _ _ => histogram_name inst
  end.

(** *** Providers *)

(** The outcome of the calls into gRPC and the OpenTelemetry exporters
    and resources during set-up. *)
Record Setup := mkSetup {
  grpc_NewClient : string → error;
  otlpmetricgrpc_New : error;
  otlploggrpc_New : error;
  resource_Merge : string → string → error
}.

Record MeterProvider := mkMeterProvider {
  reader_interval : Duration;
  mp_serviceName : string;
  mp_environment : string
}.

Definition InitMeterProvider (env : Setup)
    (serviceName otlpEndpoint environment : string)
  : option MeterProvider * error :=
  match grpc_NewClient env otlpEndpoint with
  | Some err => (None, Some (Errorf "failed to create gRPC connection" err))
  | None =>
  match otlpmetricgrpc_New env with
  | Some err => (None, Some (Errorf "failed to create metric exporter" err))
  | None =>
  match resource_Merge env serviceName environment with
  | Some err => (None, Some (Errorf "failed to create resource" err))
  | None =>
      (Some (mkMeterProvider (10 * Second) serviceName environment), None)
  end end end.

Record LoggerProvider := mkLoggerProvider {
  lp_serviceName : string;
  lp_environment : string
}.

(** The [*slog.Logger] of [otelslog.NewLogger(serviceName)]. *)
Record Logger := mkLogger { logger_name : string }.

Definition InitLoggerProvider (env : Setup)
    (serviceName otlpEndpoint environment : string)
  : option LoggerProvider * option Logger * error :=
  match grpc_NewClient env otlpEndpoint with
  | Some err =>
      (None, None, Some (Errorf "failed to create gRPC connection" err))
  | None =>
  match otlploggrpc_New env with
  | Some err => (None, None, Some (Errorf "failed to create log exporter" err))
  | None =>
  match resource_Merge env serviceName environment with
  | Some err => (None, None, Some (Errorf "failed to create resource" err))
  | None =>
      (Some (mkLoggerProvider serviceName environment),
       Some (mkLogger serviceName), None)
  end end end.

End telemetry.

(* ================================================================== *)
(** ** package handler *)

Module handler.
Import model telemetry.

Definition StatusOK : Z := 200.
Definition StatusCreated : Z := 201.
Definition StatusNoContent : Z := 204.
Definition StatusBadRequest : Z := 400.
Definition StatusNotFound : Z := 404.
Definition StatusInternalServerError : Z := 500.

(** What a handler reads of the [*http.Request]: the [id] URL parameter
    of the matched route and the bytes of the body. *)
Record Request := mkRequest {
  URLParam_id : string;
  Body : string
}.

(** The value handed to [json.NewEncoder(w).Encode]. *)
Inductive Payload :=
| Tasks (l : list Task)
| TaskPtr (t : option Task)
| StringMap (kv : list (string * string)).

(** The [http.ResponseWriter] of one request.  [WriteHeader] sends the
    status once; a later call does not change it. *)
Record ResponseWriter := mkResponseWriter {
  Header : gmap string string;
  StatusCode : option Z;
  Encoded : list Payload
}.

Definition NewResponseWriter : ResponseWriter := mkResponseWriter ∅ None [].

Definition Header_Set (k v : string) : State ResponseWriter unit :=
  modify (λ w, mkResponseWriter (<[k := v]> (Header w)) (StatusCode w) (Encoded w)).

Definition WriteHeader (status : Z) : State ResponseWriter unit :=
  modify (λ w, mkResponseWriter (Header w)
                 (match StatusCode w with
                  | None => Some status
                  | Some s => Some s
                  end)
                 (Encoded w)).

Definition Encode (data : Payload) : State ResponseWriter unit :=
  modify (λ w, mkResponseWriter (Header w) (StatusCode w) (Encoded w ++ [data])).

(** The methods of [h.repo] as the handlers call them: each runs on the
    runtime and the store [R], and returns Go's pair of a value and an
    error.  [repository_store] below is the repository of the program;
    the handlers are written once, for any store, so that every branch
    on a returned error can be exercised. *)
Record TaskStore (R : Type) := mkTaskStore {
  repo_List : State (Runtime * R) (list Task * error);
  repo_Create : CreateTaskRequest → State (Runtime * R) (option Task * error);
  repo_GetByID : string → State (Runtime * R) (option Task * error);
  repo_Update : string → UpdateTaskRequest →
                State (Runtime * R) (option Task * error);
  repo_Delete : string → State (Runtime * R) error
}.
Arguments repo_List {R}.
Arguments repo_Create {R}.
Arguments repo_GetByID {R}.
Arguments repo_Update {R}.
Arguments repo_Delete {R}.

Definition repository_store : TaskStore repository.TaskRepository :=
  mkTaskStore _ repository.List repository.Create repository.GetByID
              repository.Update repository.Delete.

(** The result of [json.NewDecoder(r.Body).Decode(&req)]. *)
Inductive decoded (A : Type) :=
| Decoded (req : A)
| DecodeError (err : errval).
Arguments Decoded {A}.
Arguments DecodeError {A}.

(** [encoding/json] for the two request types. *)
Record JSON := mkJSON {
  Decode_CreateTaskRequest : string → decoded CreateTaskRequest;
  Decode_UpdateTaskRequest : string → decoded UpdateTaskRequest
}.

(** The state of one request being served: the runtime and the store,
    the response writer [w], and the measurements made so far.  Spans
    and log records are not part of the embedding. *)
Record Serving (R : Type) := mkServing {
  sys : Runtime * R;
  w : ResponseWriter;
  measurements : list Measurement
}.
Arguments mkServing {R}.
Arguments sys {R}.
Arguments w {R}.
Arguments measurements {R}.

Section TaskHandler.
Context {R T : Type}.
Variable json : JSON.
Variable repo : TaskStore R.
Variable metrics : Metrics T.

Definition on_runtime {A} (m : State Runtime A) : State (Serving R) A :=
  zoom (λ s, (sys s).1)
       (λ rt s, mkServing (rt, (sys s).2) (w s) (measurements s)) m.

Definition on_repo {A} (m : State (Runtime * R) A) : State (Serving R) A :=
  zoom sys (λ x s, mkServing x (w s) (measurements s)) m.

Definition on_w {A} (m : State ResponseWriter A) : State (Serving R) A :=
  zoom w (λ x s, mkServing (sys s) x (measurements s)) m.

Definition measure (e : Measurement) : State (Serving R) unit :=
  modify (λ s, mkServing (sys s) (w s) (measurements s ++ [e])).

Definition respondJSON (status : Z) (data : option Payload)
  : State (Serving R) unit :=
  on_w (Header_Set "Content-Type" "application/json");;
  on_w (WriteHeader status);;
  match data with
  | Some data => on_w (Encode data)
  | None => ret tt
  end.

Definition respondError (status : Z) (message : string)
  : State (Serving R) unit :=
  respondJSON status (Some (StringMap [("error", message)])).

Definition recordMetrics (method route : string) (status : Z) (start : Time)
  : State (Serving R) unit :=
  d ← on_runtime (time_Since start);
  let duration := Seconds d in
  let attrs := [("http.method", String method);
                ("http.route", String route);
                ("http.status_code", Int status)] in
  measure (Add (RequestCounter metrics) 1 attrs);;
  measure (Record_ (RequestDuration metrics) duration attrs).

Definition List (r : Request) : State (Serving R) unit :=
  start ← on_runtime time_Now;
  '(tasks, err) ← on_repo (repo_List repo);
  match err with
  | Some err =>
      respondError StatusInternalServerError "failed to list tasks";;
      recordMetrics "GET" "/api/v1/tasks" StatusInternalServerError start
  | None =>
      respondJSON StatusOK (Some (Tasks tasks));;
      recordMetrics "GET" "/api/v1/tasks" StatusOK start
  end.

Definition Create (r : Request) : State (Serving R) unit :=
  start ← on_runtime time_Now;
  match Decode_CreateTaskRequest json (Body r) with
  | DecodeError err =>
      respondError StatusBadRequest "invalid request body";;
      recordMetrics "POST" "/api/v1/tasks" StatusBadRequest start
  | Decoded req =>
  match Validate req with
  | Some err =>
      respondError StatusBadRequest (Error err);;
      recordMetrics "POST" "/api/v1/tasks" StatusBadRequest start
  | None =>
      '(task, err) ← on_repo (repo_Create repo req);
      match err with
      | Some err =>
          respondError StatusInternalServerError "failed to create task";;
          recordMetrics "POST" "/api/v1/tasks" StatusInternalServerError start
      | None =>
          respondJSON StatusCreated (Some (TaskPtr task));;
          recordMetrics "POST" "/api/v1/tasks" StatusCreated start
      end
  end end.

Definition GetByID (r : Request) : State (Serving R) unit :=
  start ← on_runtime time_Now;
  let id := URLParam_id r in
  '(task, err) ← on_repo (repo_GetByID repo id);
  match err with
  | Some err =>
      if errors_Is_ErrTaskNotFound err then
        respondError StatusNotFound "task not found";;
        recordMetrics "GET" "/api/v1/tasks/{id}" StatusNotFound start
      else
        respondError StatusInternalServerError "failed to get task";;
        recordMetrics "GET" "/api/v1/tasks/{id}" StatusInternalServerError start
  | None =>
      respondJSON StatusOK (Some (TaskPtr task));;
      recordMetrics "GET" "/api/v1/tasks/{id}" StatusOK start
  end.

Definition Update (r : Request) : State (Serving R) unit :=
  start ← on_runtime time_Now;
  let id := URLParam_id r in
  match Decode_UpdateTaskRequest json (Body r) with
  | DecodeError err =>
      respondError StatusBadRequest "invalid request body";;
      recordMetrics "PUT" "/api/v1/tasks/{id}" StatusBadRequest start
  | Decoded req =>
      '(task, err) ← on_repo (repo_Update repo id req);
      match err with
      | Some err =>
          if errors_Is_ErrTaskNotFound err then
            respondError StatusNotFound "task not found";;
            recordMetrics "PUT" "/api/v1/tasks/{id}" StatusNotFound start
          else
            respondError StatusInternalServerError "failed to update task";;
            recordMetrics "PUT" "/api/v1/tasks/{id}" StatusInternalServerError start
      | None =>
          respondJSON StatusOK (Some (TaskPtr task));;
          recordMetrics "PUT" "/api/v1/tasks/{id}" StatusOK start
      end
  end.

Definition Delete (r : Request) : State (Serving R) unit :=
  start ← on_runtime time_Now;
  let id := URLParam_id r in
  err ← on_repo (repo_Delete repo id);
  match err with
  | Some err =>
      if errors_Is_ErrTaskNotFound err then
        respondError StatusNotFound "task not found";;
        recordMetrics "DELETE" "/api/v1/tasks/{id}" StatusNotFound start
      else
        respondError StatusInternalServerError "failed to delete task";;
        recordMetrics "DELETE" "/api/v1/tasks/{id}" StatusInternalServerError start
  | None =>
      on_w (WriteHeader StatusNoContent);;
      recordMetrics "DELETE" "/api/v1/tasks/{id}" StatusNoContent start
  end.

Definition Health (r : Request) : State (Serving R) unit :=
  respondJSON StatusOK (Some (StringMap [("status", "ok")])).

(** [Routes]: the method, the pattern and the handler of each route of
    the sub-router, in the order of registration. *)
Definition Routes : list (string * string * (Request → State (Serving R) unit)) :=
  [("GET", "/", List);
   ("POST", "/", Create);
   ("GET", "/{id}", GetByID);
   ("PUT", "/{id}", Update);
   ("DELETE", "/{id}", Delete)].

(** One request served by handler [h] on a fresh response writer: the
    response, the measurements made, and the runtime and store after. *)
Definition serve (h : Request → State (Serving R) unit) (r : Request)
    (s : Runtime * R) : ResponseWriter * list Measurement * (Runtime * R) :=
  let s' := (h r (mkServing s NewResponseWriter [])).2 in
  (w s', measurements s', sys s').

End TaskHandler.

End handler.

(* ================================================================== *)
(** ** The aggregation of the OpenTelemetry SDK

    The program hands its measurements to the OpenTelemetry SDK
    ([go.opentelemetry.io/otel/sdk/metric]), whose code is not part of
    the repository.  What the properties below need of its histogram
    follows the specification of the service. *)

Module sdkmetric.
Import model telemetry.

(** Modelled from the spec: the explicit-bucket aggregation behind
    [Float64Histogram.Record] is in the SDK, not in the repository.  The
    spec: the histogram "records elapsed wall time per request in seconds
    against fixed bucket boundaries"; "an observation of 0.2s increments
    the 0.25-bucket cumulative count".  An observation falls into the
    first bucket whose upper boundary is not below it, or into the
    overflow bucket after the last boundary. *)
Fixpoint bucket_index (bounds : list float) (v : float) : nat :=
  match bounds with
  | [] => 0%nat
  | b :: bounds' =>
      if PrimFloat.leb v b then 0%nat else S (bucket_index bounds' v)
  end.

(** The boundaries, fixed when the instrument is made, and one count per
    bucket (one more than there are boundaries). *)
Record Histogram := mkHistogramData {
  Bounds : list float;
  BucketCounts : list nat
}.

Definition new_histogram (inst : Float64Histogram) : Histogram :=
  let bounds := ExplicitBucketBoundaries inst in
  mkHistogramData bounds (replicate (S (length bounds)) 0%nat).

Definition observe (h : Histogram) (v : float) : Histogram :=
  mkHistogramData (Bounds h)
    (alter S (bucket_index (Bounds h) v) (BucketCounts h)).

(** The cumulative count of bucket [k]: the observations in the buckets
    up to and including [k]. *)
Definition cumulative (h : Histogram) (k : nat) : nat :=
  sum_list (take (S k) (BucketCounts h)).

(** The histogram of instrument [inst] after the measurements [log]. *)
Definition aggregate (inst : Float64Histogram) (log : list float) : Histogram :=
  foldl observe (new_histogram inst) log.

End sdkmetric.

(* ================================================================== *)
(** ** package config *)

Module config.

Record Config := mkConfig {
  ServerPort : string;
  OTLPEndpoint : string;
  ServiceName : string;
  Environment : string
}.

(** [os.Getenv] is the argument [environ]: unset variables read as the
    empty string. *)
Definition getEnv (environ : string → string) (key defaultValue : string)
  : string :=
  if bool_decide (environ key ≠ "") then environ key else defaultValue.

Definition Load (environ : string → string) : Config :=
  mkConfig (getEnv environ "SERVER_PORT" "8080")
           (getEnv environ "OTEL_EXPORTER_OTLP_ENDPOINT" "localhost:4317")
           (getEnv environ "OTEL_SERVICE_NAME" "go-samples")
           (getEnv environ "ENVIRONMENT" "development").

End config.

(* ================================================================== *)
(** ** cmd/server: [main] *)

Module server.
Import model telemetry config.

Inductive Provider :=
| Tracer
| Meter_
| Logger_.

(** What the process does that can be seen from outside, in order. *)
Inductive Event :=
| StartupLog (level msg : string)
| Log (level msg : string)
| Init (p : Provider)
| Shutdown (p : Provider)
| ListenAndServe
| ServerShutdown
| Cancel
| Exit (code : Z).

(** What [main] meets outside the program. *)
Record World := mkWorld {
  environ : string → string;
  setup : Setup;
  (** [telemetry.InitTracerProvider] is not among the sources: its
      outcome is taken as given. *)
  InitTracerProvider_error : error;
  otel_Meter : string → Meter;
  (** the error, other than [http.ErrServerClosed], with which
      [ListenAndServe] returns before any signal *)
  ListenAndServe_error : error;
  (** whether SIGINT or SIGTERM is ever delivered *)
  signalled : bool;
  server_Shutdown_error : error;
  provider_Shutdown_error : Provider → error
}.

(** A deferred call of [main]. *)
Inductive Deferred :=
| DeferShutdown (p : Provider)
| DeferCancel.

Record Frame := mkFrame {
  trace : list Event;
  defers : list Deferred
}.

(** How far a function body got: it runs on, the process has exited
    through [os.Exit], or it waits for ever. *)
Inductive outcome (A : Type) :=
| Running (a : A)
| Exited (code : Z)
| Blocked.
Arguments Running {A}.
Arguments Exited {A}.
Arguments Blocked {A}.

Definition Proc (A : Type) : Type := Frame → outcome A * Frame.

#[global] Instance Proc_ret : MRet Proc := λ A a f, (Running a, f).
#[global] Instance Proc_bind : MBind Proc := λ A B k m f,
  match m f with
  | (Running a, f') => k a f'
  | (Exited code, f') => (Exited code, f')
  | (Blocked, f') => (Blocked, f')
  end.

Definition emit (e : Event) : Proc unit :=
  λ f, (Running tt, mkFrame (trace f ++ [e]) (defers f)).

(** [defer]: the call is pushed; the last one pushed runs first. *)
Definition defer (d : Deferred) : Proc unit :=
  λ f, (Running tt, mkFrame (trace f) (d :: defers f)).

(** [os.Exit]: the process ends at once, deferred calls do not run. *)
Definition os_Exit {A} (code : Z) : Proc A :=
  λ f, (Exited code, mkFrame (trace f ++ [Exit code]) (defers f)).

Definition block {A} : Proc A := λ f, (Blocked, f).

Definition provider_name (p : Provider) : string :=
  match p with
  | Tracer => "tracer"
  | Meter_ => "meter"
  | Logger_ => "logger"
  end.

(** The body of a deferred call. *)
Definition run_deferred (world : World) (d : Deferred) : list Event :=
  match d with
  | DeferShutdown p =>
      Shutdown p ::
      match provider_Shutdown_error world p with
      | Some err =>
          [StartupLog "ERROR"
             ("failed to shutdown " +:+ provider_name p +:+ " provider")]
      | None => []
      end
  | DeferCancel => [Cancel]
  end.

(** The instruments [main] hands to the handlers. *)
Definition metrics (world : World) (cfg : Config)
  : option (Metrics repository.TaskRepository) * error :=
  NewMetrics (otel_Meter world (ServiceName cfg)) repository.Count.

(** The body of [main] up to its return.  The goroutine around
    [server.ListenAndServe] runs beside the wait for the signal: either
    the server fails and the goroutine exits the process, or the signal
    arrives, or neither happens and the process serves on. *)
Definition main_body (world : World) : Proc unit :=
  let cfg := Load (environ world) in
  emit (StartupLog "INFO" "starting application");;
  match InitTracerProvider_error world with
  | Some err =>
      emit (StartupLog "ERROR" "failed to initialize tracer provider");;
      os_Exit 1
  | None =>
  emit (Init Tracer);;
  defer (DeferShutdown Tracer);;
  match InitMeterProvider (setup world) (ServiceName cfg) (OTLPEndpoint cfg)
          (Environment cfg) with
  | (_, Some err) =>
      emit (StartupLog "ERROR" "failed to initialize meter provider");;
      os_Exit 1
  | (mp, None) =>
  emit (Init Meter_);;
  defer (DeferShutdown Meter_);;
  match InitLoggerProvider (setup world) (ServiceName cfg) (OTLPEndpoint cfg)
          (Environment cfg) with
  | (_, _, Some err) =>
      emit (StartupLog "ERROR" "failed to initialize logger provider");;
      os_Exit 1
  | (lp, logger, None) =>
  emit (Init Logger_);;
  defer (DeferShutdown Logger_);;
  match metrics world cfg with
  | (_, Some err) =>
      emit (Log "ERROR" "failed to create metrics");;
      os_Exit 1
  | (m, None) =>
  emit (Log "INFO" "server listening");;
  emit ListenAndServe;;
  match ListenAndServe_error world with
  | Some err =>
      emit (Log "ERROR" "server error");;
      os_Exit 1
  | None =>
  (if signalled world then mret tt else block);;
  emit (Log "INFO" "shutting down server...");;
  defer DeferCancel;;
  emit ServerShutdown;;
  match server_Shutdown_error world with
  | Some err => emit (Log "ERROR" "server forced to shutdown")
  | None => mret tt
  end;;
  emit (Log "INFO" "server stopped")
  end end end end end.

(** [main]: the body, and at its return the deferred calls, last
    deferred first. *)
Definition main (world : World) : outcome unit * list Event :=
  match main_body world (mkFrame [] []) with
  | (Running tt, f) =>
      (Running tt, trace f ++ concat (map (run_deferred world) (defers f)))
  | (o, f) => (o, trace f)
  end.

End server.

(* ================================================================== *)
(** ** Histories of the repository *)

Module history.
Import model repository.

(** One call of a method of the repository. *)
Inductive Op :=
| OpCreate (req : CreateTaskRequest)
| OpGetByID (id : string)
| OpList
| OpUpdate (id : string) (req : UpdateTaskRequest)
| OpDelete (id : string).

(** The call, keeping the error it returns. *)
Definition step (op : Op) : State Sys error :=
  match op with
  | OpCreate req => res ← Create req; ret res.2
  | OpGetByID id => res ← GetByID id; ret res.2
  | OpList => res ← List; ret res.2
  | OpUpdate id req => res ← Update id req; ret res.2
  | OpDelete id => Delete id
  end.

(** The calls one after the other, with the error of each. *)
Fixpoint run (ops : list Op) : State Sys (list error) :=
  match ops with
  | [] => ret []
  | op :: ops' => err ← step op; errs ← run ops'; ret (err :: errs)
  end.

Definition is_create (op : Op) : bool :=
  match op with OpCreate _ => true | _ => false end.

Definition is_delete (op : Op) : bool :=
  match op with OpDelete _ => true | _ => false end.

(** The records created by a history. *)
Definition created (ops : list Op) : nat :=
  length (filter (λ op, is_create op = true) ops).

(** The deletions of a history that succeeded: calls of [Delete] that
    returned a nil error. *)
Fixpoint deleted (ops : list Op) (errs : list error) : nat :=
  match ops, errs with
  | op :: ops', err :: errs' =>
      (if is_delete op && bool_decide (err = None) then 1 else 0)%nat
      + deleted ops' errs'
  | _, _ => 0%nat
  end.

(** [uuid.New] does not return the same id twice. *)
Definition unique_uuids (rt : Runtime) : Prop :=
  ∀ i j : nat, uuids rt i = uuids rt j → i = j.

End history.

(* ================================================================== *)
(** ** The vocabulary of the properties *)

Module spec.
Import model repository history telemetry.

(** *** The repository *)

(** The runtime after one reading of the clock, and after one id. *)
Definition tick (rt : Runtime) : Runtime :=
  mkRuntime (clock rt) (S (ticks rt)) (uuids rt) (drawn rt).

Definition draw (rt : Runtime) : Runtime :=
  mkRuntime (clock rt) (ticks rt) (uuids rt) (S (drawn rt)).

(** The record [Update] leaves under the id of [task]. *)
Definition updated (task : Task) (req : UpdateTaskRequest) (now : Time) : Task :=
  mkTask (ID task)
         (if bool_decide (update_Title req ≠ "") then update_Title req
          else Title task)
         (if bool_decide (update_Description req ≠ "")
          then update_Description req else Description task)
         (match update_Done req with Some d => d | None => Done task end)
         (CreatedAt task) now.

(** The error of [model.ErrTaskNotFound] as a value of type [error]. *)
Definition not_found : error := Some (ETask ErrTaskNotFound).

(** Every id in the store was handed out by [uuid.New]. *)
Definition ids_drawn (s : Sys) : Prop :=
  ∀ id, is_Some (tasks s.2 !! id) → ∃ i : nat, (i < drawn s.1)%nat ∧ uuids s.1 i = id.

(** *** The handlers *)

Import handler.

(** The attribute set [recordMetrics] builds. *)
Definition http_attrs (method route : string) (status : Z) : list KeyValue :=
  [("http.method", String method);
   ("http.route", String route);
   ("http.status_code", Int status)].

(** The attribute set of a measurement. *)
Definition attrs_of (e : Measurement) : list KeyValue :=
  match e with
  | Add _ _ attrs => attrs
  | Record_ _ _ attrs => attrs
  end.

(** The status codes the handlers answer with. *)
Definition outcome_statuses : list Z :=
  [StatusOK; StatusCreated; StatusNoContent;
   StatusBadRequest; StatusNotFound; StatusInternalServerError].

(** Handler [h] serves every request in every state with exactly two
    measurements: one [Add] of 1 on the request counter and one [Record]
    on the duration histogram, both with the attributes [method], [route]
    and the status code written to the response. *)
Definition records_once {R T} (metrics : Metrics T)
    (h : Request → State (Serving R) unit) (method route : string) : Prop :=
  ∀ (r : Request) (s : Runtime * R),
    ∃ (status : Z) (duration : float),
      (serve h r s).1.2
      = [Add (RequestCounter metrics) 1 (http_attrs method route status);
         Record_ (RequestDuration metrics) duration
                 (http_attrs method route status)]
      ∧ StatusCode (serve h r s).1.1 = Some status
      ∧ status ∈ outcome_statuses.

(** The response of handler [h] to request [r] in state [s], and the
    state after it. *)
Definition response {R} (h : Request → State (Serving R) unit) (r : Request)
    (s : Runtime * R) : ResponseWriter :=
  (serve h r s).1.1.

Definition after {R} (h : Request → State (Serving R) unit) (r : Request)
    (s : Runtime * R) : Runtime * R :=
  (serve h r s).2.

(** Handler [h] never takes an internal-error branch: it never answers
    500 and never records a measurement with that status. *)
Definition never_internal_error {R}
    (h : Request → State (Serving R) unit) : Prop :=
  ∀ (r : Request) (s : Runtime * R),
    StatusCode (response h r s) ≠ Some StatusInternalServerError ∧
    ∀ e, e ∈ (serve h r s).1.2 →
         ("http.status_code", Int StatusInternalServerError) ∉ attrs_of e.

(** [time.Now] reads a clock that has advanced since its last reading. *)
Definition advancing_clock (rt : Runtime) : Prop :=
  ∀ i j : nat, (i < j)%nat → clock rt i < clock rt j.

(** *** [main] *)

Import server.

(** The construction of one of the three instruments fails. *)
Definition construction_fails (meter : Meter) : Prop :=
  is_Some (Int64Counter_error meter "http_requests_total") ∨
  is_Some (Float64Histogram_error meter "http_request_duration_seconds") ∨
  is_Some (Int64ObservableGauge_error meter "tasks_total").

(** The providers a run shuts down, in the order in which it does. *)
Definition shutdowns (tr : list Event) : list Provider :=
  omap (λ e, match e with Shutdown p => Some p | _ => None end) tr.

(** Provider [p] is shut down before provider [q]. *)
Definition shut_down_before (tr : list Event) (p q : Provider) : Prop :=
  ∃ i j : nat,
    shutdowns tr !! i = Some p ∧ shutdowns tr !! j = Some q ∧ (i < j)%nat.

(** The order the specification states: the tracer provider and the
    meter provider before the logger provider. *)
Definition logger_shuts_down_last (tr : list Event) : Prop :=
  shut_down_before tr Tracer Logger_ ∧ shut_down_before tr Meter_ Logger_.

End spec.

(* ================================================================== *)
(** ** Sample inputs *)

Module sample.
Import model repository history telemetry handler.

(** An id stream without repetition: "", "a", "aa", ... *)
Fixpoint nth_uuid (n : nat) : string :=
  match n with
  | O => ""
  | S n' => "a" +:+ nth_uuid n'
  end.

(** A clock that advances by 0.2 s from one reading to the next. *)
Definition rt : Runtime :=
  mkRuntime (λ k, 1000 + 200000000 * Z.of_nat k) 0 nth_uuid 0.

Definition ops : list Op :=
  [OpCreate (mkCreateTaskRequest "Learn Go" "...");
   OpCreate (mkCreateTaskRequest "Learn Rocq" "");
   OpDelete "a";
   OpDelete "a";
   OpUpdate "" (mkUpdateTaskRequest "" "" (Some true));
   OpCreate (mkCreateTaskRequest "Rest" "")].

(** A stand-in for [encoding/json]: an empty body does not decode; any
    other body is the title of a create request; the body "done" is an
    update request that sets [Done]. *)
Definition json : JSON :=
  mkJSON
    (λ body, if bool_decide (body = "") then DecodeError (EOther "EOF")
             else Decoded (mkCreateTaskRequest body "..."))
    (λ body, if bool_decide (body = "done")
             then Decoded (mkUpdateTaskRequest "" "" (Some true))
             else DecodeError (EOther "unexpected input")).

(** A meter on which no construction fails. *)
Definition meter : Meter := mkMeter (λ _, None) (λ _, None) (λ _, None).

(** The instruments [NewMetrics] builds on it for the repository. *)
Definition metrics : Metrics TaskRepository :=
  mkMetrics
    (mkCounter "http_requests_total" "Total number of HTTP requests"
       "{request}")
    (mkHistogram "http_request_duration_seconds"
       "HTTP request duration in seconds" "s"
       [0.005; 0.01; 0.025; 0.05; 0.1; 0.25; 0.5; 1; 2.5; 5; 10]%float)
    (mkGauge "tasks_total" "Current number of tasks in the system" "{task}"
       [λ r, ([Count r], None)])
    Count.

(** A store whose every method fails with an error of its own. *)
Definition failing_store : TaskStore unit :=
  let err : error := Some (EOther "connection refused") in
  mkTaskStore unit
    (λ s, (([], err), s))
    (λ _ s, ((None, err), s))
    (λ _ s, ((None, err), s))
    (λ _ _ s, ((None, err), s))
    (λ _ s, (err, s)).

(** A set-up in which every external call succeeds. *)
Definition setup : Setup := mkSetup (λ _, None) None None (λ _ _, None).

(** A world in which start-up succeeds, the server listens, a signal
    arrives and every shutdown succeeds. *)
Definition world : server.World :=
  server.mkWorld (λ _, "") setup None (λ _, meter) None true None (λ _, None).

(** The same world, but the meter refuses the duration histogram. *)
Definition world_without_histogram : server.World :=
  server.mkWorld (λ _, "") setup None
    (λ _, mkMeter (λ _, None)
            (λ _, Some (EOther "duplicate instrument registration"))
            (λ _, None))
    None true None (λ _, None).

End sample.

(* ================================================================== *)
(** ** Further vocabulary: configuration, store invariants, responses,
       request histories, start-up *)

Module props.
Import model repository history telemetry.

(** *** Configuration *)

(** [value] is the variable [key] of the environment when that is set to
    a non-empty string, and [default] otherwise. *)
Definition chosen (environ : string → string) (key default value : string)
  : Prop :=
  (environ key = "" → value = default) ∧
  (environ key ≠ "" → value = environ key).

(** *** The store *)

(** Every record is stored under its own id. *)
Definition keyed_by_id (r : TaskRepository) : Prop :=
  ∀ id t, tasks r !! id = Some t → ID t = id.

(** Every record has a title. *)
Definition titled (r : TaskRepository) : Prop :=
  ∀ id t, tasks r !! id = Some t → Title t ≠ "".

(** No record was updated before it was created. *)
Definition stamped_in_order (r : TaskRepository) : Prop :=
  ∀ id t, tasks r !! id = Some t → CreatedAt t ≤ UpdatedAt t.

(** The stamps of the store were read on the clock of the runtime:
    [CreatedAt] at a reading already made, and not after [UpdatedAt]. *)
Definition stamped_by_clock (s : Sys) : Prop :=
  ∀ id t, tasks s.2 !! id = Some t →
    CreatedAt t ≤ UpdatedAt t ∧
    ∃ j : nat, (j < ticks s.1)%nat ∧ CreatedAt t = clock s.1 j.

(** A clock that never goes back. *)
Definition nondecreasing_clock (rt : Runtime) : Prop :=
  ∀ i j : nat, (i ≤ j)%nat → clock rt i ≤ clock rt j.

(** *** Responses and request histories *)

Import handler.

(** The body of an error response: the one-entry object [{error: msg}]. *)
Definition error_body (w : ResponseWriter) : Prop :=
  ∃ msg : string, Encoded w = [StringMap [("error", msg)]].

(** The body of a success response: one list of records, one record, or
    the status object of the health check. *)
Definition data_body (w : ResponseWriter) : Prop :=
  (∃ l, Encoded w = [Tasks l]) ∨ (∃ t, Encoded w = [TaskPtr t]) ∨
  Encoded w = [StringMap [("status", "ok")]].

(** A response is either the bare 204, without header and body, or a
    JSON response: the content type set, and an error body from status
    400 on, a data body below. *)
Definition well_formed_response (w : ResponseWriter) : Prop :=
  ∃ status : Z,
    StatusCode w = Some status ∧
    ((status = StatusNoContent ∧ Header w = ∅ ∧ Encoded w = []) ∨
     (status ≠ StatusNoContent ∧
      Header w !! "Content-Type" = Some "application/json" ∧
      ((status < 400 ∧ data_body w) ∨ (400 ≤ status ∧ error_body w)))).

(** The status a handler answers with after the store's answer [err]. *)
Definition status_for (success : Z) (err : error) : Z :=
  match err with
  | None => success
  | Some err =>
      if errors_Is_ErrTaskNotFound err then StatusNotFound
      else StatusInternalServerError
  end.

(** The routes of the service. *)
Inductive Call :=
| CallList
| CallCreate
| CallGetByID
| CallUpdate
| CallDelete
| CallHealth.

Definition handler_of {T} (json : JSON) (metrics : Metrics T) (c : Call)
  : Request → State (Serving TaskRepository) unit :=
  match c with
  | CallList => handler.List repository_store metrics
  | CallCreate => handler.Create json repository_store metrics
  | CallGetByID => handler.GetByID repository_store metrics
  | CallUpdate => handler.Update json repository_store metrics
  | CallDelete => handler.Delete repository_store metrics
  | CallHealth => handler.Health
  end.

(** The state after the requests [calls], served one after the other. *)
Definition serve_all {T} (json : JSON) (metrics : Metrics T)
    (calls : list (Call * Request)) (s : Sys) : Sys :=
  foldl (λ s c, spec.after (handler_of json metrics c.1) c.2 s) s calls.

(** *** Start-up *)

Import config server.

(** The four steps of start-up succeed: the three providers and the
    instruments. *)
Definition startup_ok (world : World) : Prop :=
  let cfg := Load (environ world) in
  InitTracerProvider_error world = None ∧
  (InitMeterProvider (setup world) (ServiceName cfg) (OTLPEndpoint cfg)
     (Environment cfg)).2 = None ∧
  (InitLoggerProvider (setup world) (ServiceName cfg) (OTLPEndpoint cfg)
     (Environment cfg)).2 = None ∧
  (server.metrics world cfg).2 = None.

Definition is_Log (e : Event) : Prop :=
  match e with Log _ _ => True | _ => False end.

Definition is_Shutdown (e : Event) : Prop :=
  match e with Shutdown _ => True | _ => False end.

End props.

(* ================================================================== *)
(** * Properties of the repository *)

Import model repository spec.

Ltac run_go :=
  cbv [mbind mret State_bind State_ret bind ret get put modify zoom
       runtime store time_Now uuid_New time_Since
       Create GetByID List Update Delete history.step]; cbn [fst snd].

Lemma Create_eq req rt r :
  Create req (rt, r) =
  let task := mkTask (uuids rt (drawn rt)) (create_Title req)
                (create_Description req) false
                (clock rt (ticks rt)) (clock rt (ticks rt)) in
  ((Some task, None),
   (draw (tick rt), mkRepo (<[uuids rt (drawn rt) := task]> (tasks r)))).
Proof. reflexivity. Qed.

Lemma GetByID_eq id rt r :
  GetByID id (rt, r) =
  match tasks r !! id with
  | None => ((None, Some (ETask ErrTaskNotFound)), (rt, r))
  | Some task => ((Some task, None), (rt, r))
  end.
Proof. run_go. destruct r as [m]; cbn. by destruct (m !! id). Qed.

Lemma List_eq rt r :
  List (rt, r) = (((map_to_list (tasks r)).*2, None), (rt, r)).
Proof. run_go. by destruct r. Qed.

Lemma Update_eq id req rt r :
  Update id req (rt, r) =
  match tasks r !! id with
  | None => ((None, Some (ETask ErrTaskNotFound)), (rt, r))
  | Some task =>
      let task' := updated task req (clock rt (ticks rt)) in
      ((Some task', None), (tick rt, mkRepo (<[id := task']> (tasks r))))
  end.
Proof.
  run_go. destruct r as [m]; cbn. destruct (m !! id) as [t|]; [|done].
  unfold updated. cbn.
  by destruct (bool_decide (update_Title req ≠ "")),
       (bool_decide (update_Description req ≠ "")), (update_Done req).
Qed.

Lemma Delete_eq id rt r :
  Delete id (rt, r) =
  match tasks r !! id with
  | None => (Some (ETask ErrTaskNotFound), (rt, r))
  | Some _ => (None, (rt, mkRepo (delete id (tasks r))))
  end.
Proof. run_go. destruct r as [m]; cbn. by destruct (m !! id). Qed.

(** C5.  For every id, every update request and every state of the
    store, [GetByID], [Update] and [Delete] return the not-found error
    exactly when the store holds no record under the id; and a call that
    returns not-found leaves the store (and the runtime) as it was: no
    record is added, removed or modified. *)
Theorem not_found_exactly_when_absent
    (id : string) (req : UpdateTaskRequest) (rt : Runtime) (r : TaskRepository) :
  ((GetByID id (rt, r)).1.2 = not_found ↔ tasks r !! id = None) ∧
  ((Update id req (rt, r)).1.2 = not_found ↔ tasks r !! id = None) ∧
  ((Delete id (rt, r)).1 = not_found ↔ tasks r !! id = None) ∧
  ((GetByID id (rt, r)).1.2 = not_found → (GetByID id (rt, r)).2 = (rt, r)) ∧
  ((Update id req (rt, r)).1.2 = not_found → (Update id req (rt, r)).2 = (rt, r)) ∧
  ((Delete id (rt, r)).1 = not_found → (Delete id (rt, r)).2 = (rt, r)).
Proof.
  rewrite GetByID_eq, Update_eq, Delete_eq. unfold not_found.
  destruct (tasks r !! id) as [task|] eqn:Hid; cbn;
    repeat split; try done; intros [=].
Qed.

(** The three methods at an id the store does not hold, and at one it
    holds. *)
Example not_found_exactly_when_absent_example :
  let task := mkTask "a" "t" "" false 5 5 in
  let r := mkRepo {["a" := task]} in
  let rt := mkRuntime (λ _, 7) 0 (λ _, "a") 0 in
  GetByID "b" (rt, r) = ((None, not_found), (rt, r)) ∧
  Update "b" (mkUpdateTaskRequest "x" "y" (Some true)) (rt, r)
    = ((None, not_found), (rt, r)) ∧
  Delete "b" (rt, r) = (not_found, (rt, r)) ∧
  GetByID "a" (rt, r) = ((Some task, None), (rt, r)) ∧
  (Delete "a" (rt, r)).1 = None.
Proof. cbv zeta. rewrite !GetByID_eq, Update_eq, !Delete_eq. by vm_compute. Qed.

(** C9.  [Update] of a record the store holds applies only the supplied
    fields: an empty [Title] or [Description] of the request leaves the
    field as it was (so [Update] never makes a non-empty title or
    description empty), a non-empty one replaces it; a nil [Done] leaves
    [Done] as it was; [ID] and [CreatedAt] are never modified; the
    records under the other ids are left alone. *)
Theorem Update_applies_only_supplied_fields
    (id : string) (req : UpdateTaskRequest) (rt : Runtime) (r : TaskRepository)
    (task : Task) :
  tasks r !! id = Some task →
  ∃ task' : Task,
    (Update id req (rt, r)).1 = (Some task', None) ∧
    tasks (Update id req (rt, r)).2.2 !! id = Some task' ∧
    (update_Title req = "" → Title task' = Title task) ∧
    (update_Title req ≠ "" → Title task' = update_Title req) ∧
    (update_Description req = "" → Description task' = Description task) ∧
    (update_Description req ≠ "" → Description task' = update_Description req) ∧
    (update_Done req = None → Done task' = Done task) ∧
    (∀ d, update_Done req = Some d → Done task' = d) ∧
    ID task' = ID task ∧
    CreatedAt task' = CreatedAt task ∧
    (Title task ≠ "" → Title task' ≠ "") ∧
    (Description task ≠ "" → Description task' ≠ "") ∧
    (∀ id', id' ≠ id →
       tasks (Update id req (rt, r)).2.2 !! id' = tasks r !! id').
Proof.
  intros Hid. rewrite Update_eq, Hid. cbn.
  exists (updated task req (clock rt (ticks rt))).
  split; [done|]. split; [by rewrite lookup_insert_eq|].
  unfold updated; cbn.
  repeat split.
  - intros ->. by rewrite bool_decide_eq_false_2 by (by intros ?).
  - intros H. by rewrite bool_decide_eq_true_2.
  - intros ->. by rewrite bool_decide_eq_false_2 by (by intros ?).
  - intros H. by rewrite bool_decide_eq_true_2.
  - by intros ->.
  - by intros d ->.
  - intros H. by case_bool_decide.
  - intros H. by case_bool_decide.
  - intros id' Hne. by rewrite lookup_insert_ne.
Qed.

Lemma Update_applies_only_supplied_fields_witness :
  ∃ task' : Task,
    (Update "a" (mkUpdateTaskRequest "" "" (Some true))
       (mkRuntime (λ _, 7) 0 (λ _, "a") 0,
        mkRepo {["a" := mkTask "a" "t" "d" false 5 5]})).1
    = (Some task', None) ∧
    Title task' = "t" ∧ Description task' = "d" ∧ Done task' = true ∧
    ID task' = "a" ∧ CreatedAt task' = 5.
Proof.
  destruct (Update_applies_only_supplied_fields "a"
              (mkUpdateTaskRequest "" "" (Some true))
              (mkRuntime (λ _, 7) 0 (λ _, "a") 0)
              (mkRepo {["a" := mkTask "a" "t" "d" false 5 5]})
              (mkTask "a" "t" "d" false 5 5))
    as (task' & Hres & _ & Ht & _ & Hd & _ & _ & Hdone & Hid & Hc & _).
  - reflexivity.
  - exists task'. split; [exact Hres|].
    split; [exact (Ht eq_refl)|]. split; [exact (Hd eq_refl)|].
    split; [exact (Hdone true eq_refl)|]. split; [exact Hid|exact Hc].
Defined.

(* ------------------------------------------------------------------ *)
(** *** Count along a history *)

Import history.

Lemma bind_ret_run {S A B} (m : State S A) (f : A → B) (s : S) :
  (a ← m; ret (f a)) s = (f (m s).1, (m s).2).
Proof. unfold mbind, State_bind, bind, ret. by destruct (m s). Qed.

(** One call: the id stream is the same after it, the ids of the store
    stay drawn ones, and the size of the store moves by one for a
    [Create] and for a [Delete] that succeeds, and not otherwise. *)
Lemma step_size (op : Op) (s : Sys) :
  unique_uuids s.1 → ids_drawn s →
  let res := step op s in
  uuids res.2.1 = uuids s.1 ∧
  ids_drawn res.2 ∧
  (size (tasks res.2.2)
   + (if is_delete op && bool_decide (res.1 = None) then 1 else 0)
   = size (tasks s.2) + (if is_create op then 1 else 0))%nat.
Proof.
  destruct s as [rt r]. cbn [fst snd]. intros Huniq Hdrawn.
  unfold ids_drawn in *. cbn [fst snd] in Hdrawn.
  destruct op as [req|id| |id req|id]; cbn [step is_delete is_create andb].
  - (* Create *)
    rewrite (bind_ret_run (Create req) snd).
    rewrite Create_eq. cbn.
    assert (Hfresh : tasks r !! uuids rt (drawn rt) = None).
    { destruct (tasks r !! uuids rt (drawn rt)) eqn:E; [|done].
      destruct (Hdrawn (uuids rt (drawn rt))) as (i & Hi & Hu); [by rewrite E|].
      cbn in *. apply Huniq in Hu. lia. }
    split; [done|]. split.
    + intros id [t Ht]. cbn in *.
      destruct (decide (uuids rt (drawn rt) = id)) as [<-|Hne].
      * exists (drawn rt). split; [lia|done].
      * rewrite lookup_insert_ne in Ht by done.
        destruct (Hdrawn id) as (i & Hi & Hu); [by rewrite Ht|].
        exists i. cbn in *. split; [lia|done].
    + rewrite map_size_insert_None by done. lia.
  - (* GetByID *)
    rewrite (bind_ret_run (GetByID id) snd).
    rewrite GetByID_eq. destruct (tasks r !! id); cbn; (split; [done|split; [done|lia]]).
  - (* List *)
    rewrite (bind_ret_run (List) snd).
    rewrite List_eq. cbn. split; [done|split; [done|lia]].
  - (* Update *)
    rewrite (bind_ret_run (Update id req) snd).
    rewrite Update_eq. destruct (tasks r !! id) as [t|] eqn:E; cbn;
      (split; [done|]); (split; [|]); try done; try lia.
    + intros id' [t' Ht']. cbn in *. apply Hdrawn. cbn.
      destruct (decide (id = id')) as [<-|Hne]; [by rewrite E|].
      by rewrite lookup_insert_ne in Ht' by done.
    + rewrite map_size_insert_Some by done. lia.
  - (* Delete *)
    rewrite Delete_eq. destruct (tasks r !! id) as [t|] eqn:E; cbn;
      (split; [done|]); (split; [|]); try done; try lia.
    + intros id' [t' Ht']. cbn in *. apply Hdrawn. cbn.
      destruct (decide (id = id')) as [<-|Hne].
      * by rewrite lookup_delete_eq in Ht'.
      * by rewrite lookup_delete_ne in Ht' by done.
    + rewrite map_size_delete_Some by done.
      assert (size (tasks r) ≠ 0)%nat; [|lia].
      intros H0. apply map_size_empty_inv in H0. by rewrite H0 in E.
Qed.

Lemma run_cons (op : Op) (ops : list Op) (s : Sys) :
  run (op :: ops) s =
  ((step op s).1 :: (run ops (step op s).2).1, (run ops (step op s).2).2).
Proof.
  cbn [run]. unfold mbind, State_bind, bind, ret.
  destruct (step op s) as [err s']. cbn. by destruct (run ops s').
Qed.

Lemma run_size (ops : list Op) : ∀ s : Sys,
  unique_uuids s.1 → ids_drawn s →
  (size (tasks (run ops s).2.2) + deleted ops (run ops s).1
   = size (tasks s.2) + created ops)%nat.
Proof.
  induction ops as [|op ops IH]; intros s Huniq Hdrawn.
  - cbn. lia.
  - rewrite run_cons. cbn [fst snd deleted].
    destruct (step_size op s Huniq Hdrawn) as (Hu & Hd & Hsz).
    assert (Huniq' : unique_uuids (step op s).2.1).
    { unfold unique_uuids. by rewrite Hu. }
    specialize (IH (step op s).2 Huniq' Hd).
    unfold created in *. rewrite filter_cons.
    destruct op; cbn [is_create is_delete andb] in *;
      try (rewrite decide_True by done); try (rewrite decide_False by done);
      cbn [length]; lia.
Qed.

(** C2.  Start from the empty repository of [NewTaskRepository] and run
    any history of calls (Create, Update and Delete, and the two reading
    methods as well).  After every prefix of the history, [Count] is the
    number of records created so far minus the number of deletions that
    succeeded so far, and it is the number of records the store holds
    (the length of what [List] returns).  The ids come from [uuid.New],
    which is taken not to repeat itself. *)
Theorem Count_is_created_minus_deleted
    (rt : Runtime) (ops : list Op) (n : nat) :
  unique_uuids rt →
  let res := run (take n ops) (rt, NewTaskRepository) in
  Count res.2.2
  = Z.of_nat (created (take n ops)) - Z.of_nat (deleted (take n ops) res.1)
  ∧ Count res.2.2 = Z.of_nat (length (List res.2).1.1).
Proof.
  intros Huniq res. split.
  - pose proof (run_size (take n ops) (rt, NewTaskRepository) Huniq) as H.
    fold res in H. unfold Count. cbn [fst snd NewTaskRepository tasks] in H.
    rewrite map_size_empty in H.
    assert (Hd : ids_drawn (rt, mkRepo ∅)).
    { intros id [t Ht]. cbn in Ht. by rewrite lookup_empty in Ht. }
    specialize (H Hd). lia.
  - destruct res.2 as [rt' r'] eqn:E. rewrite List_eq. cbn [fst snd].
    unfold Count. by rewrite length_fmap, length_map_to_list.
Qed.

Lemma sample_unique_uuids : unique_uuids sample.rt.
Proof.
  intros i. cbn. induction i as [|i IH]; intros [|j]; cbn; try done.
  intros [= H]. f_equal. by apply IH.
Qed.

Lemma Count_is_created_minus_deleted_witness :
  unique_uuids sample.rt ∧
  let res := run (take 4 sample.ops) (sample.rt, NewTaskRepository) in
  Count res.2.2
  = Z.of_nat (created (take 4 sample.ops))
    - Z.of_nat (deleted (take 4 sample.ops) res.1)
  ∧ Count res.2.2 = Z.of_nat (length (List res.2).1.1).
Proof.
  split; [exact sample_unique_uuids|].
  exact (Count_is_created_minus_deleted sample.rt sample.ops 4
           sample_unique_uuids).
Defined.

(** The sample history, prefix by prefix: the count, the creations and
    the successful deletions. *)
Example Count_along_sample_history :
  map (λ n, let res := run (take n sample.ops) (sample.rt, NewTaskRepository) in
            (Count res.2.2, created (take n sample.ops),
             deleted (take n sample.ops) res.1))
      (seq 0 7)
  = [(0, 0%nat, 0%nat); (1, 1%nat, 0%nat); (2, 2%nat, 0%nat);
     (1, 2%nat, 1%nat); (1, 2%nat, 1%nat); (1, 2%nat, 1%nat);
     (2, 3%nat, 1%nat)].
Proof. by vm_compute. Qed.

(* ================================================================== *)
(** * Properties of the handlers *)

Import telemetry handler.

Ltac serve_go :=
  cbv [serve handler.List handler.Create handler.GetByID handler.Update
       handler.Delete mbind mret State_bind State_ret bind ret get put modify
       zoom on_runtime on_repo on_w measure respondJSON respondError
       recordMetrics WriteHeader Header_Set Encode NewResponseWriter
       time_Now time_Since sys w measurements StatusCode Header Encoded
       fst snd app];
  cbn beta iota.

Ltac serve_case :=
  match goal with
  | |- context [Decode_CreateTaskRequest ?j ?b] =>
      destruct (Decode_CreateTaskRequest j b) eqn:?
  | |- context [Decode_UpdateTaskRequest ?j ?b] =>
      destruct (Decode_UpdateTaskRequest j b) eqn:?
  | |- context [Validate ?q] => destruct (Validate q) eqn:?
  | |- context [repo_List ?a ?x] =>
      destruct (repo_List a x) as [[? [?|]] ?] eqn:?
  | |- context [repo_Create ?a ?q ?x] =>
      destruct (repo_Create a q x) as [[? [?|]] ?] eqn:?
  | |- context [repo_GetByID ?a ?i ?x] =>
      destruct (repo_GetByID a i x) as [[? [?|]] ?] eqn:?
  | |- context [repo_Update ?a ?i ?q ?x] =>
      destruct (repo_Update a i q x) as [[? [?|]] ?] eqn:?
  | |- context [repo_Delete ?a ?i ?x] =>
      destruct (repo_Delete a i x) as [[?|] ?] eqn:?
  | |- context [errors_Is_ErrTaskNotFound ?e] =>
      destruct (errors_Is_ErrTaskNotFound e) eqn:?
  end; serve_go.

Ltac serve_done :=
  eexists _, _; split; [reflexivity|]; split; [reflexivity|];
  unfold outcome_statuses; set_solver.

Section records_once.
Context {R T : Type} (json : JSON) (repo : TaskStore R) (metrics : Metrics T).

Lemma List_records_once :
  records_once metrics (handler.List repo metrics) "GET" "/api/v1/tasks".
Proof. intros r [rt x]; serve_go; repeat serve_case; serve_done. Qed.

Lemma Create_records_once :
  records_once metrics (handler.Create json repo metrics) "POST" "/api/v1/tasks".
Proof. intros r [rt x]; serve_go; repeat serve_case; serve_done. Qed.

Lemma GetByID_records_once :
  records_once metrics (handler.GetByID repo metrics) "GET" "/api/v1/tasks/{id}".
Proof. intros r [rt x]; serve_go; repeat serve_case; serve_done. Qed.

Lemma Update_records_once :
  records_once metrics (handler.Update json repo metrics)
               "PUT" "/api/v1/tasks/{id}".
Proof. intros r [rt x]; serve_go; repeat serve_case; serve_done. Qed.

Lemma Delete_records_once :
  records_once metrics (handler.Delete repo metrics)
               "DELETE" "/api/v1/tasks/{id}".
Proof. intros r [rt x]; serve_go; repeat serve_case; serve_done. Qed.

End records_once.

(** C3.  Each of the five handlers, whatever the request, whatever the
    state, and whatever the store answers (a record, not-found, or any
    other error), makes exactly one increment of the request counter and
    exactly one duration observation, both attributed with the HTTP
    method, the route template (a constant of the handler, never the path
    of the request) and the status code of the response; the status code
    is one of the six the handlers use; and the method recorded by a
    handler is the method [Routes] registers it under. *)
Theorem handlers_record_metrics_once
    {R T : Type} (json : JSON) (repo : TaskStore R) (metrics : Metrics T) :
  records_once metrics (handler.List repo metrics) "GET" "/api/v1/tasks" ∧
  records_once metrics (handler.Create json repo metrics) "POST" "/api/v1/tasks" ∧
  records_once metrics (handler.GetByID repo metrics)
               "GET" "/api/v1/tasks/{id}" ∧
  records_once metrics (handler.Update json repo metrics)
               "PUT" "/api/v1/tasks/{id}" ∧
  records_once metrics (handler.Delete repo metrics)
               "DELETE" "/api/v1/tasks/{id}" ∧
  Forall (λ route, ∃ template : string,
            records_once metrics route.2 route.1.1 template)
         (Routes json repo metrics).
Proof.
  pose proof (List_records_once repo metrics).
  pose proof (Create_records_once json repo metrics).
  pose proof (GetByID_records_once repo metrics).
  pose proof (Update_records_once json repo metrics).
  pose proof (Delete_records_once repo metrics).
  repeat split; try done.
  unfold Routes. repeat (apply Forall_cons; split; [by eexists|]).
  apply Forall_nil_2.
Qed.

(** The four kinds of outcome on the sample runtime: a record created,
    a record not found, a body that does not decode, and a store that
    fails.  Each is measured once by the counter and once by the
    histogram, with the same attributes. *)
Example handlers_record_on_every_path :
  let s := (sample.rt, NewTaskRepository) in
  let hCreate := handler.Create sample.json repository_store sample.metrics in
  let hGetByID := handler.GetByID repository_store sample.metrics in
  let hFailing := handler.GetByID sample.failing_store sample.metrics in
  map (map attrs_of)
      [(serve hCreate (mkRequest "" "Learn Go") s).1.2;
       (serve hGetByID (mkRequest "no-such-id" "") s).1.2;
       (serve hCreate (mkRequest "" "") s).1.2;
       (serve hFailing (mkRequest "x" "") (sample.rt, tt)).1.2]
  = [[http_attrs "POST" "/api/v1/tasks" 201;
      http_attrs "POST" "/api/v1/tasks" 201];
     [http_attrs "GET" "/api/v1/tasks/{id}" 404;
      http_attrs "GET" "/api/v1/tasks/{id}" 404];
     [http_attrs "POST" "/api/v1/tasks" 400;
      http_attrs "POST" "/api/v1/tasks" 400];
     [http_attrs "GET" "/api/v1/tasks/{id}" 500;
      http_attrs "GET" "/api/v1/tasks/{id}" 500]].
Proof. by vm_compute. Qed.

(* ------------------------------------------------------------------ *)
(** *** The handlers on the repository of the program *)

Ltac serve_repo :=
  unfold response, after;
  cbv [serve handler.List handler.Create handler.GetByID handler.Update
       handler.Delete mbind mret State_bind State_ret bind ret get put modify
       zoom on_runtime on_repo on_w measure respondJSON respondError
       recordMetrics WriteHeader Header_Set Encode NewResponseWriter
       time_Now time_Since sys w measurements StatusCode Header Encoded
       fst snd app repository_store repo_List repo_Create repo_GetByID
       repo_Update repo_Delete runtime store
       repository.Create repository.GetByID repository.List
       repository.Update repository.Delete repository.tasks];
  cbn beta iota.

Section on_repository.
Context {T : Type} (json : JSON) (metrics : Metrics T).

Let hList := handler.List repository_store metrics.
Let hCreate := handler.Create json repository_store metrics.
Let hGetByID := handler.GetByID repository_store metrics.
Let hUpdate := handler.Update json repository_store metrics.
Let hDelete := handler.Delete repository_store metrics.

Lemma serve_List (r : Request) (s : Sys) :
  StatusCode (response hList r s) = Some StatusOK ∧
  Encoded (response hList r s) = [Tasks (map_to_list (tasks s.2)).*2].
Proof. destruct s as [rt [m]]. subst hList. by serve_repo. Qed.

Lemma serve_Create (r : Request) (s : Sys) :
  match Decode_CreateTaskRequest json (Body r) with
  | DecodeError _ =>
      StatusCode (response hCreate r s) = Some StatusBadRequest ∧
      (after hCreate r s).2 = s.2
  | Decoded req =>
      if bool_decide (create_Title req = "") then
        StatusCode (response hCreate r s) = Some StatusBadRequest ∧
        (after hCreate r s).2 = s.2
      else
        let task := mkTask (uuids s.1 (drawn s.1)) (create_Title req)
                      (create_Description req) false
                      (clock s.1 (S (ticks s.1))) (clock s.1 (S (ticks s.1))) in
        StatusCode (response hCreate r s) = Some StatusCreated ∧
        Encoded (response hCreate r s) = [TaskPtr (Some task)] ∧
        after hCreate r s
        = (tick (draw (tick (tick s.1))),
           mkRepo (<[ID task := task]> (tasks s.2)))
  end.
Proof.
  destruct s as [rt [m]]. subst hCreate. serve_repo.
  destruct (Decode_CreateTaskRequest json (Body r)) as [req|err]; [|done].
  unfold Validate. by destruct (bool_decide (create_Title req = "")).
Qed.

Lemma serve_GetByID (r : Request) (s : Sys) :
  after hGetByID r s = (tick (tick s.1), s.2) ∧
  match tasks s.2 !! URLParam_id r with
  | None => StatusCode (response hGetByID r s) = Some StatusNotFound
  | Some task =>
      StatusCode (response hGetByID r s) = Some StatusOK ∧
      Encoded (response hGetByID r s) = [TaskPtr (Some task)]
  end.
Proof.
  destruct s as [rt [m]]. subst hGetByID. serve_repo.
  by destruct (m !! URLParam_id r).
Qed.

Lemma serve_Update (r : Request) (s : Sys) :
  match Decode_UpdateTaskRequest json (Body r) with
  | DecodeError _ =>
      StatusCode (response hUpdate r s) = Some StatusBadRequest ∧
      (after hUpdate r s).2 = s.2
  | Decoded req =>
      match tasks s.2 !! URLParam_id r with
      | None =>
          StatusCode (response hUpdate r s) = Some StatusNotFound ∧
          (after hUpdate r s).2 = s.2
      | Some task =>
          let task' := updated task req (clock s.1 (S (ticks s.1))) in
          StatusCode (response hUpdate r s) = Some StatusOK ∧
          Encoded (response hUpdate r s) = [TaskPtr (Some task')] ∧
          after hUpdate r s
          = (tick (tick (tick s.1)),
             mkRepo (<[URLParam_id r := task']> (tasks s.2)))
      end
  end.
Proof.
  destruct s as [rt [m]]. subst hUpdate. serve_repo.
  destruct (Decode_UpdateTaskRequest json (Body r)) as [req|err]; [|done].
  destruct (m !! URLParam_id r) as [task|]; [|done].
  unfold updated. cbn.
  by destruct (bool_decide (update_Title req ≠ "")),
       (bool_decide (update_Description req ≠ "")), (update_Done req).
Qed.

Lemma serve_Delete (r : Request) (s : Sys) :
  match tasks s.2 !! URLParam_id r with
  | None =>
      StatusCode (response hDelete r s) = Some StatusNotFound ∧
      after hDelete r s = (tick (tick s.1), s.2)
  | Some _ =>
      StatusCode (response hDelete r s) = Some StatusNoContent ∧
      Encoded (response hDelete r s) = [] ∧
      after hDelete r s
      = (tick (tick s.1), mkRepo (delete (URLParam_id r) (tasks s.2)))
  end.
Proof.
  destruct s as [rt [m]]. subst hDelete. serve_repo.
  by destruct (m !! URLParam_id r).
Qed.

End on_repository.

Lemma records_once_never_internal_error {R T} (metrics : Metrics T)
    (h : Request → State (Serving R) unit) (method route : string) :
  records_once metrics h method route →
  (∀ r s, StatusCode (response h r s) ≠ Some StatusInternalServerError) →
  never_internal_error h.
Proof.
  intros Honce Hstatus r s. split; [apply Hstatus|].
  destruct (Honce r s) as (status & d & Hm & Hs & _).
  specialize (Hstatus r s). unfold response in Hstatus. rewrite Hs in Hstatus.
  assert (status ≠ StatusInternalServerError) by congruence.
  intros e. rewrite Hm. unfold http_attrs.
  intros [->|[->|[]%elem_of_nil]%elem_of_cons]%elem_of_cons; cbn;
    rewrite !elem_of_cons, elem_of_nil; intros [?|[?|[?|[]]]]; congruence.
Qed.

(** C10.  [Create] and [List] of the repository return a nil error for
    every input and every state of the store; so the handlers [List] and
    [Create], which the program runs on this repository, never take
    their internal-error branch: no request in no state is answered 500
    or measured with status 500 by them. *)
Theorem Create_and_List_never_fail
    {T : Type} (json : JSON) (metrics : Metrics T) :
  (∀ (req : CreateTaskRequest) (s : Sys), (repository.Create req s).1.2 = None) ∧
  (∀ s : Sys, (repository.List s).1.2 = None) ∧
  never_internal_error (handler.List repository_store metrics) ∧
  never_internal_error (handler.Create json repository_store metrics).
Proof.
  split; [by intros req [rt r]|]. split; [by intros [rt [m]]|]. split.
  - eapply records_once_never_internal_error; [apply List_records_once|].
    intros r s. by rewrite (proj1 (serve_List metrics r s)).
  - eapply records_once_never_internal_error;
      [apply (Create_records_once json)|].
    intros r s. pose proof (serve_Create json metrics r s) as H.
    destruct (Decode_CreateTaskRequest json (Body r)) as [req|err].
    + destruct (bool_decide (create_Title req = ""));
        [by rewrite (proj1 H)|].
      cbv zeta in H. by rewrite (proj1 H).
    + by rewrite (proj1 H).
Qed.

(* ------------------------------------------------------------------ *)
(** *** End to end *)

(** C6.  On the repository of the program, in any state of the store:
    a POST whose body decodes to a request with a title is answered 201
    with a record that carries the id [uuid.New] has just generated
    (an id not in the store before, when ids do not repeat), done=false
    and created_at equal to updated_at; a GET on that id is then answered
    200 with the same record; a PUT on it whose body decodes to a request
    with done=true is answered 200 with done=true and, the clock having
    advanced, updated_at after created_at; a DELETE on it is answered
    204; and a GET after that is answered 404. *)
Theorem create_get_update_delete_get
    {T : Type} (json : JSON) (metrics : Metrics T)
    (s : Sys) (post put : Request)
    (create_req : CreateTaskRequest) (update_req : UpdateTaskRequest) :
  Decode_CreateTaskRequest json (Body post) = Decoded create_req →
  create_Title create_req ≠ "" →
  Decode_UpdateTaskRequest json (Body put) = Decoded update_req →
  update_Done update_req = Some true →
  advancing_clock s.1 →
  let hCreate := handler.Create json repository_store metrics in
  let hGetByID := handler.GetByID repository_store metrics in
  let hUpdate := handler.Update json repository_store metrics in
  let hDelete := handler.Delete repository_store metrics in
  ∃ task task' : Task,
    (* POST *)
    StatusCode (response hCreate post s) = Some StatusCreated ∧
    Encoded (response hCreate post s) = [TaskPtr (Some task)] ∧
    ID task = uuids s.1 (drawn s.1) ∧
    (unique_uuids s.1 → ids_drawn s → tasks s.2 !! ID task = None) ∧
    Done task = false ∧
    CreatedAt task = UpdatedAt task ∧
    (* GET *)
    let s1 := after hCreate post s in
    let get := mkRequest (ID task) "" in
    StatusCode (response hGetByID get s1) = Some StatusOK ∧
    Encoded (response hGetByID get s1) = [TaskPtr (Some task)] ∧
    (* PUT *)
    let s2 := after hGetByID get s1 in
    let put := mkRequest (ID task) (Body put) in
    StatusCode (response hUpdate put s2) = Some StatusOK ∧
    Encoded (response hUpdate put s2) = [TaskPtr (Some task')] ∧
    ID task' = ID task ∧
    Done task' = true ∧
    CreatedAt task' = CreatedAt task ∧
    CreatedAt task' < UpdatedAt task' ∧
    (* DELETE *)
    let s3 := after hUpdate put s2 in
    StatusCode (response hDelete get s3) = Some StatusNoContent ∧
    (* GET *)
    let s4 := after hDelete get s3 in
    StatusCode (response hGetByID get s4) = Some StatusNotFound.
Proof.
  intros Hpost Htitle Hput Hdone Hclock hCreate hGetByID hUpdate hDelete.
  destruct s as [rt r]. cbn [fst snd] in *.
  set (task := mkTask (uuids rt (drawn rt)) (create_Title create_req)
                 (create_Description create_req) false
                 (clock rt (S (ticks rt))) (clock rt (S (ticks rt)))).
  set (task' := updated task update_req (clock rt (S (S (S (S (S (S (ticks rt))))))))).
  exists task, task'.
  (* POST *)
  pose proof (serve_Create json metrics post (rt, r)) as H1.
  rewrite Hpost, bool_decide_eq_false_2 in H1 by done.
  cbv zeta in H1. cbn [fst snd] in H1. fold task in H1. fold hCreate in H1.
  destruct H1 as (H1a & H1b & H1c).
  do 2 (split; [done|]). split; [done|].
  split.
  { intros Huniq Hdrawn. unfold ids_drawn in Hdrawn. cbn in Hdrawn |- *.
    destruct (tasks r !! uuids rt (drawn rt)) eqn:E; [|done].
    destruct (Hdrawn (uuids rt (drawn rt))) as (i & Hi & Hu); [by rewrite E|].
    cbn in *. apply Huniq in Hu. lia. }
  do 2 (split; [done|]).
  (* GET *)
  set (get := mkRequest (ID task) "").
  set (put' := mkRequest (ID task) (Body put)).
  rewrite H1c.
  pose proof (serve_GetByID metrics get
                (tick (draw (tick (tick rt))),
                 mkRepo (<[ID task:=task]> (tasks r)))) as (H2c & H2).
  cbn [fst snd tasks URLParam_id get] in H2, H2c. fold hGetByID in H2, H2c.
  rewrite lookup_insert_eq in H2. destruct H2 as (H2a & H2b).
  do 2 (split; [done|]).
  (* PUT *)
  rewrite H2c.
  pose proof (serve_Update json metrics put'
                (tick (tick (tick (draw (tick (tick rt))))),
                 mkRepo (<[ID task:=task]> (tasks r)))) as H3.
  cbn [fst snd tasks URLParam_id Body put'] in H3. fold hUpdate in H3.
  rewrite Hput, lookup_insert_eq in H3. cbv zeta in H3.
  change (updated task update_req _) with task' in H3.
  destruct H3 as (H3a & H3b & H3c).
  do 2 (split; [done|]). split; [done|].
  split; [by cbn; rewrite Hdone|]. split; [done|].
  split; [cbn; apply Hclock; lia|].
  (* DELETE *)
  rewrite H3c.
  pose proof (serve_Delete metrics get
                (tick (tick (tick (tick (tick (tick (draw (tick (tick rt)))))))),
                 mkRepo (<[ID task:=task']> (<[ID task:=task]> (tasks r)))))
    as H4.
  cbn [fst snd tasks URLParam_id get] in H4. fold hDelete in H4.
  rewrite lookup_insert_eq in H4. destruct H4 as (H4a & H4b & H4c).
  split; [done|].
  (* GET *)
  rewrite H4c.
  pose proof (serve_GetByID metrics get
                (tick (tick (tick (tick (tick (tick (tick (tick
                   (draw (tick (tick rt)))))))))),
                 mkRepo (delete (ID task)
                           (<[ID task:=task']> (<[ID task:=task]> (tasks r))))))
    as (_ & H5).
  cbn [fst snd tasks URLParam_id get] in H5. fold hGetByID in H5.
  by rewrite lookup_delete_eq in H5.
Qed.

Lemma sample_advancing_clock : advancing_clock sample.rt.
Proof. intros i j Hij. cbn. lia. Qed.

Example sample_metrics_are_NewMetrics :
  NewMetrics sample.meter Count = (Some sample.metrics, None).
Proof. reflexivity. Qed.

Lemma create_get_update_delete_get_witness :
  ∃ task task' : Task,
    StatusCode (response (handler.Create sample.json repository_store sample.metrics)
                  (mkRequest "" "Learn Go") (sample.rt, NewTaskRepository))
    = Some StatusCreated ∧
    Encoded (response (handler.Create sample.json repository_store sample.metrics)
               (mkRequest "" "Learn Go") (sample.rt, NewTaskRepository))
    = [TaskPtr (Some task)] ∧
    CreatedAt task = UpdatedAt task ∧
    Done task' = true ∧
    CreatedAt task' < UpdatedAt task'.
Proof.
  destruct (create_get_update_delete_get sample.json sample.metrics
              (sample.rt, NewTaskRepository)
              (mkRequest "" "Learn Go") (mkRequest "" "done")
              (mkCreateTaskRequest "Learn Go" "...")
              (mkUpdateTaskRequest "" "" (Some true)))
    as (task & task' & H1 & H2 & _ & _ & _ & H3 & _ & _ & _ & _ & _ & H4 & _ & H5 & _).
  - reflexivity.
  - discriminate.
  - reflexivity.
  - reflexivity.
  - exact sample_advancing_clock.
  - exists task, task'. repeat split; assumption.
Defined.

(** The five requests of the scenario on the sample runtime: the status
    codes, and the record after the update. *)
Example create_get_update_delete_get_sample :
  let hCreate := handler.Create sample.json repository_store sample.metrics in
  let hGetByID := handler.GetByID repository_store sample.metrics in
  let hUpdate := handler.Update sample.json repository_store sample.metrics in
  let hDelete := handler.Delete repository_store sample.metrics in
  let s0 := (sample.rt, NewTaskRepository) in
  let s1 := after hCreate (mkRequest "" "Learn Go") s0 in
  let s2 := after hGetByID (mkRequest "" "") s1 in
  let s3 := after hUpdate (mkRequest "" "done") s2 in
  let s4 := after hDelete (mkRequest "" "") s3 in
  StatusCode (response hCreate (mkRequest "" "Learn Go") s0) = Some 201 ∧
  StatusCode (response hGetByID (mkRequest "" "") s1) = Some 200 ∧
  StatusCode (response hUpdate (mkRequest "" "done") s2) = Some 200 ∧
  Encoded (response hUpdate (mkRequest "" "done") s2)
  = [TaskPtr (Some (mkTask "" "Learn Go" "..." true 200001000 1200001000))] ∧
  StatusCode (response hDelete (mkRequest "" "") s3) = Some 204 ∧
  StatusCode (response hGetByID (mkRequest "" "") s4) = Some 404 ∧
  StatusCode (response hCreate (mkRequest "" "") s4) = Some 400.
Proof. by vm_compute. Qed.

(* ================================================================== *)
(** * Properties of the instruments *)

Import sdkmetric.

Lemma NewMetrics_Some {S} (meter : Meter) (f : S → Z) (m : Metrics S) :
  NewMetrics meter f = (Some m, None) →
  m = mkMetrics
        (mkCounter "http_requests_total" "Total number of HTTP requests"
           "{request}")
        (mkHistogram "http_request_duration_seconds"
           "HTTP request duration in seconds" "s"
           [0.005; 0.01; 0.025; 0.05; 0.1; 0.25; 0.5; 1; 2.5; 5; 10]%float)
        (mkGauge "tasks_total" "Current number of tasks in the system"
           "{task}" [λ s, ([f s], None)])
        f.
Proof.
  unfold NewMetrics, meter_Int64Counter, meter_Float64Histogram,
    meter_Int64ObservableGauge.
  destruct (Int64Counter_error meter _); [done|].
  destruct (Float64Histogram_error meter _); [done|].
  destruct (Int64ObservableGauge_error meter _); [done|].
  by intros [= <-].
Qed.

(** An observation adds one to the cumulative count of the buckets from
    its own on, and nothing to the others. *)
Lemma sum_list_take_alter (l : list nat) (n i : nat) :
  (sum_list (take n (alter S i l))
   = sum_list (take n l) + (if decide (i < n ∧ i < length l) then 1 else 0))%nat.
Proof.
  revert n i. induction l as [|x l IH]; intros n i.
  - change (alter S i []) with (@nil nat). rewrite take_nil. cbn.
    case_decide; [lia|done].
  - destruct n as [|n]; [rewrite !take_0; cbn; case_decide; lia|].
    destruct i as [|i]; cbn.
    + case_decide; lia.
    + rewrite IH. repeat case_decide; lia.
Qed.

Lemma aggregate_snoc inst (log : list float) (v : float) :
  aggregate inst (log ++ [v]) = observe (aggregate inst log) v.
Proof. unfold aggregate. by rewrite foldl_snoc. Qed.

Lemma aggregate_shape inst (log : list float) :
  Bounds (aggregate inst log) = ExplicitBucketBoundaries inst ∧
  length (BucketCounts (aggregate inst log))
  = S (length (ExplicitBucketBoundaries inst)).
Proof.
  induction log as [|v log IH] using rev_ind.
  - cbn. by rewrite length_replicate.
  - rewrite aggregate_snoc. cbn. by rewrite length_alter.
Qed.

Lemma cumulative_observe (h : Histogram) (v : float) (k : nat) :
  cumulative (observe h v) k
  = (cumulative h k
     + (if decide (bucket_index (Bounds h) v < S k
                   ∧ bucket_index (Bounds h) v < length (BucketCounts h))
        then 1 else 0))%nat.
Proof. unfold cumulative, observe. cbn. apply sum_list_take_alter. Qed.

(** C4.  The duration histogram that [NewMetrics] constructs has exactly
    the boundaries 0.005, 0.01, 0.025, 0.05, 0.1, 0.25, 0.5, 1, 2.5, 5,
    10; the boundaries of its aggregation are these after any
    observations ([Record] takes a value and attributes only); every
    cumulative bucket count after one more observation is at least what
    it was; and an observation of 0.2 adds one to the cumulative count
    of the bucket whose boundary is 0.25. *)
Theorem duration_histogram_buckets
    {St : Type} (meter : Meter) (f : St → Z) (m : Metrics St) :
  NewMetrics meter f = (Some m, None) →
  let inst := RequestDuration m in
  ExplicitBucketBoundaries inst
  = [0.005; 0.01; 0.025; 0.05; 0.1; 0.25; 0.5; 1; 2.5; 5; 10]%float ∧
  (∀ log : list float,
     Bounds (aggregate inst log) = ExplicitBucketBoundaries inst) ∧
  (∀ (log : list float) (v : float) (k : nat),
     (cumulative (aggregate inst log) k
      ≤ cumulative (aggregate inst (log ++ [v])) k)%nat) ∧
  (∀ log : list float,
     Bounds (aggregate inst log) !! 5%nat = Some 0.25%float ∧
     cumulative (aggregate inst (log ++ [0.2%float])) 5
     = S (cumulative (aggregate inst log) 5)).
Proof.
  intros Hm inst. apply NewMetrics_Some in Hm. subst m. cbn in inst.
  split; [done|]. split; [intros log; apply aggregate_shape|]. split.
  - intros log v k. rewrite aggregate_snoc, cumulative_observe. lia.
  - intros log. destruct (aggregate_shape inst log) as [Hb Hl].
    rewrite aggregate_snoc, cumulative_observe, Hb, Hl.
    split; [done|]. subst inst. cbn [ExplicitBucketBoundaries].
    replace (bucket_index _ 0.2%float) with 5%nat by (by vm_compute).
    rewrite decide_True by (cbn; lia). lia.
Qed.

Lemma duration_histogram_buckets_witness :
  ExplicitBucketBoundaries (RequestDuration sample.metrics)
  = [0.005; 0.01; 0.025; 0.05; 0.1; 0.25; 0.5; 1; 2.5; 5; 10]%float ∧
  cumulative
    (aggregate (RequestDuration sample.metrics) ([0.003; 7; 0.3] ++ [0.2])%float) 5
  = S (cumulative (aggregate (RequestDuration sample.metrics) [0.003; 7; 0.3]%float) 5).
Proof.
  destruct (duration_histogram_buckets sample.meter Count sample.metrics
              eq_refl) as (Hb & _ & _ & H02).
  split; [exact Hb|exact (proj2 (H02 _))].
Defined.

(** Five observations, bucket by bucket, and the cumulative count of the
    0.25 bucket before and after the observation of 0.2. *)
Example duration_histogram_sample :
  BucketCounts (aggregate (RequestDuration sample.metrics)
                  [0.003; 7; 0.3; 0.2; 0.25; 100]%float)
  = [1; 0; 0; 0; 0; 2; 1; 0; 0; 0; 1; 1]%nat ∧
  cumulative (aggregate (RequestDuration sample.metrics) [0.003; 7; 0.3]%float) 5
  = 1%nat ∧
  cumulative (aggregate (RequestDuration sample.metrics)
                [0.003; 7; 0.3; 0.2]%float) 5
  = 2%nat.
Proof. by vm_compute. Qed.

(** C8, its parts on the handlers: no handler makes a measurement on an
    instrument named [name] other than the request counter's and the
    duration histogram's names. *)
Lemma records_once_names {R T} (metrics : Metrics T)
    (h : Request → State (Serving R) unit) (method route name : string) :
  records_once metrics h method route →
  name ≠ counter_name (RequestCounter metrics) →
  name ≠ histogram_name (RequestDuration metrics) →
  ∀ r s e, e ∈ (serve h r s).1.2 → instrument_name e ≠ name.
Proof.
  intros Honce Hc Hh r s e. destruct (Honce r s) as (status & d & -> & _).
  intros [->|[->|[]%elem_of_nil]%elem_of_cons]%elem_of_cons; cbn; congruence.
Qed.

(** C8.  In the program as [main] wires it (the instruments of
    [NewMetrics] on the count of the repository, the meter provider of
    [InitMeterProvider]): the gauge is named tasks_total; no handler
    makes a measurement on an instrument of that name (the handlers of
    [Routes] measure on the counter and the histogram only, [Health]
    measures nothing); the gauge has one registered callback, which in
    any state [r] of the store observes exactly [Count r], the number of
    records of [r], and returns a nil error; and the periodic reader that
    runs it has an interval of 10 seconds. *)
Theorem tasks_gauge_is_pulled
    (world : server.World) (json : JSON)
    (m : Metrics TaskRepository) (mp : MeterProvider) :
  let cfg := config.Load (server.environ world) in
  server.metrics world cfg = (Some m, None) →
  InitMeterProvider (server.setup world) (config.ServiceName cfg)
    (config.OTLPEndpoint cfg) (config.Environment cfg) = (Some mp, None) →
  gauge_name (TasksGauge m) = "tasks_total" ∧
  (∃ callback : Int64Callback TaskRepository,
     gauge_callbacks (TasksGauge m) = [callback] ∧
     ∀ r : TaskRepository,
       callback r = ([Count r], None) ∧ Count r = Z.of_nat (size (tasks r))) ∧
  reader_interval mp = 10 * Second ∧
  Forall (λ route,
            ∀ r s e, e ∈ (serve route.2 r s).1.2 →
                     instrument_name e ≠ "tasks_total")
         (Routes json repository_store m) ∧
  (∀ r (s : Sys), (serve handler.Health r s).1.2 = []).
Proof.
  intros cfg Hm Hmp. apply NewMetrics_Some in Hm. subst m.
  split; [done|]. split; [by eexists|]. split.
  - unfold InitMeterProvider in Hmp.
    destruct (grpc_NewClient _ _); [done|].
    destruct (otlpmetricgrpc_New _); [done|].
    destruct (resource_Merge _ _ _); [done|]. by injection Hmp as <-.
  - split; [|done].
    unfold Routes. repeat (apply Forall_cons; split); [..|apply Forall_nil_2];
      cbn [snd]; eapply records_once_names;
      eauto using List_records_once, Create_records_once,
        GetByID_records_once, Update_records_once, Delete_records_once.
Qed.

Lemma tasks_gauge_is_pulled_witness :
  (∃ callback : Int64Callback TaskRepository,
     gauge_callbacks (TasksGauge sample.metrics) = [callback] ∧
     callback (mkRepo {["a" := mkTask "a" "t" "" false 5 5]}) = ([1], None)) ∧
  reader_interval (mkMeterProvider (10 * Second) "go-samples" "development")
  = 10000000000.
Proof.
  destruct (tasks_gauge_is_pulled sample.world sample.json sample.metrics
              (mkMeterProvider (10 * Second) "go-samples" "development")
              eq_refl eq_refl) as (_ & (callback & Hg & Hc) & Hi & _).
  split; [|exact Hi].
  exists callback. split; [exact Hg|exact (proj1 (Hc _))].
Defined.

(* ================================================================== *)
(** * Properties of [main] *)

Import server.

Lemma NewMetrics_fails {St} (meter : Meter) (f : St → Z) :
  construction_fails meter →
  ∃ err, NewMetrics meter f = (None, Some err).
Proof.
  unfold construction_fails, NewMetrics, meter_Int64Counter,
    meter_Float64Histogram, meter_Int64ObservableGauge.
  intros H.
  destruct (Int64Counter_error meter _) as [e1|]; [by eexists|].
  destruct (Float64Histogram_error meter _) as [e2|]; [by eexists|].
  destruct (Int64ObservableGauge_error meter _) as [e3|]; [by eexists|].
  destruct H as [[? [=]]|[[? [=]]|[? [=]]]].
Qed.

Ltac main_go :=
  cbv [main main_body mbind mret Proc_bind Proc_ret emit defer os_Exit block
       trace defers fst snd app];
  cbn beta iota.

Ltac main_case :=
  match goal with
  | |- context [InitTracerProvider_error ?w] =>
      destruct (InitTracerProvider_error w) eqn:?
  | |- context [InitMeterProvider ?a ?b ?c ?d] =>
      destruct (InitMeterProvider a b c d) as [? [?|]] eqn:?
  | |- context [InitLoggerProvider ?a ?b ?c ?d] =>
      destruct (InitLoggerProvider a b c d) as [[? ?] [?|]] eqn:?
  | |- context [server.metrics ?w ?c] =>
      destruct (server.metrics w c) as [? [?|]] eqn:?
  | |- context [ListenAndServe_error ?w] =>
      destruct (ListenAndServe_error w) eqn:?
  | |- context [signalled ?w] => destruct (signalled w) eqn:?
  | |- context [server_Shutdown_error ?w] =>
      destruct (server_Shutdown_error w) eqn:?
  end; main_go.

(** C7.  If the construction of any of the three instruments fails,
    [NewMetrics] returns a nil [Metrics] and a non-nil error, whatever
    the count function; and [main] then leaves through [os.Exit(1)]
    without ever starting to listen and serve. *)
Theorem NewMetrics_failure_is_fatal (world : World) :
  let cfg := config.Load (environ world) in
  construction_fails (otel_Meter world (config.ServiceName cfg)) →
  (∀ (St : Type) (f : St → Z),
     ∃ err, NewMetrics (otel_Meter world (config.ServiceName cfg)) f
            = (None, Some err)) ∧
  (main world).1 = Exited 1 ∧
(ListenAndServe ∉ (main world).2) ∧
  last (main world).2 = Some (Exit 1).
Proof.
  intros cfg Hfails. split; [intros St f; by apply NewMetrics_fails|].
  destruct (NewMetrics_fails _ Count Hfails) as [err Herr].
  main_go. fold cfg. unfold server.metrics. rewrite Herr.
  repeat main_case;
    (split; [done|]); (split; [|done]);
    rewrite ?elem_of_cons, elem_of_nil; intuition discriminate.
Qed.

Lemma NewMetrics_failure_is_fatal_witness :
  (∃ err, NewMetrics (otel_Meter sample.world_without_histogram "go-samples")
            Count = (None, Some err)) ∧
  main sample.world_without_histogram
  = (Exited 1,
     [StartupLog "INFO" "starting application";
      Init Tracer; Init Meter_; Init Logger_;
      Log "ERROR" "failed to create metrics"; Exit 1]).
Proof.
  destruct (NewMetrics_failure_is_fatal sample.world_without_histogram)
    as (H & _).
  - right; left. by eexists.
  - split; [exact (H _ Count)|reflexivity].
Defined.

(* ------------------------------------------------------------------ *)
(** *** The order of shutdown *)

(** C1, as stated, fails: in a world where everything succeeds and the
    signal arrives, [main] returns and shuts the logger provider down
    first, not last. *)
Lemma logger_shuts_down_last_counterexample :
  (main sample.world).1 = Running tt ∧
  shutdowns (main sample.world).2 = [Logger_; Meter_; Tracer] ∧
  ¬ logger_shuts_down_last (main sample.world).2.
Proof.
  split; [reflexivity|]. split; [reflexivity|].
  intros [(i & j & Hi & Hj & Hlt) _].
  change (shutdowns (main sample.world).2) with [Logger_; Meter_; Tracer] in *.
  destruct i as [|[|[|i]]]; try discriminate.
  destruct j as [|[|[|j]]]; try discriminate; lia.
Qed.

(** C1, amended.  When [main] returns, its deferred calls run last
    registered first: the three providers are shut down in the reverse
    order of their initialisation, the logger provider first, then the
    meter provider, then the tracer provider. *)
Theorem providers_shut_down_in_reverse_order (world : World) :
  (main world).1 = Running tt →
  shutdowns (main world).2 = [Logger_; Meter_; Tracer] ∧
  shut_down_before (main world).2 Logger_ Meter_ ∧
  shut_down_before (main world).2 Logger_ Tracer ∧
  shut_down_before (main world).2 Meter_ Tracer.
Proof.
  intros Hret.
  assert (Hs : shutdowns (main world).2 = [Logger_; Meter_; Tracer]).
  { revert Hret. main_go. repeat main_case; try discriminate; intros _;
      cbn; by destruct (provider_Shutdown_error world Logger_),
                (provider_Shutdown_error world Meter_),
                (provider_Shutdown_error world Tracer). }
  split; [done|]. unfold shut_down_before. rewrite Hs.
  split; [exists 0%nat, 1%nat; repeat split; lia|].
  split; [exists 0%nat, 2%nat; repeat split; lia|].
  exists 1%nat, 2%nat; repeat split; lia.
Qed.

Lemma providers_shut_down_in_reverse_order_witness :
  (main sample.world).1 = Running tt ∧
  shut_down_before (main sample.world).2 Logger_ Tracer.
Proof.
  split; [reflexivity|].
  exact (proj1 (proj2 (proj2
           (providers_shut_down_in_reverse_order sample.world eq_refl)))).
Defined.

(** X16.  A process that leaves through [os.Exit], or that never
    receives a signal, shuts no provider down, whatever was initialised
    before: the deferred shutdowns run only when [main] returns. *)
Lemma no_shutdown_without_return (world : World) :
  (main world).1 ≠ Running tt → shutdowns (main world).2 = [].
Proof.
  main_go. repeat main_case; done.
Qed.

(** The run of the sample world. *)
Example main_sample_world :
  main sample.world
  = (Running tt,
     [StartupLog "INFO" "starting application";
      Init Tracer; Init Meter_; Init Logger_;
      Log "INFO" "server listening"; ListenAndServe;
      Log "INFO" "shutting down server..."; ServerShutdown;
      Log "INFO" "server stopped";
      Cancel; Shutdown Logger_; Shutdown Meter_; Shutdown Tracer]).
Proof. reflexivity. Qed.

(* ================================================================== *)
(** * Further properties *)

Import props.

(* ------------------------------------------------------------------ *)
(** *** Configuration *)

(** X1.  [Load] takes each setting from its environment variable when
    that is set to a non-empty string and falls back to the default
    otherwise (a variable set to the empty string counts as unset); so no
    field of the configuration is ever empty. *)
Theorem Load_takes_variable_or_default (environ : string → string) :
  chosen environ "SERVER_PORT" "8080" (config.ServerPort (config.Load environ)) ∧
  chosen environ "OTEL_EXPORTER_OTLP_ENDPOINT" "localhost:4317"
         (config.OTLPEndpoint (config.Load environ)) ∧
  chosen environ "OTEL_SERVICE_NAME" "go-samples"
         (config.ServiceName (config.Load environ)) ∧
  chosen environ "ENVIRONMENT" "development"
         (config.Environment (config.Load environ)) ∧
  config.ServerPort (config.Load environ) ≠ "" ∧
  config.OTLPEndpoint (config.Load environ) ≠ "" ∧
  config.ServiceName (config.Load environ) ≠ "" ∧
  config.Environment (config.Load environ) ≠ "".
Proof.
  unfold chosen, config.Load, config.getEnv. cbn.
  repeat split; intros; case_bool_decide; congruence.
Qed.

(** A deployment that sets the port and leaves the rest unset. *)
Example Load_sample :
  config.Load (λ key, if bool_decide (key = "SERVER_PORT") then "9090" else "")
  = config.mkConfig "9090" "localhost:4317" "go-samples" "development".
Proof. reflexivity. Qed.

(* ------------------------------------------------------------------ *)
(** *** The repository, one call *)

(** X2.  [Create] stores the new record under the id [uuid.New] returns,
    with the title and description of the request, not done.  The records
    under the other ids are left alone.  When the id is new the count
    grows by one; when the store already holds a record under that id,
    the record is replaced and the count stays. *)
Theorem Create_inserts_or_replaces
    (req : CreateTaskRequest) (rt : Runtime) (r : TaskRepository) :
  ∃ task : Task,
    (repository.Create req (rt, r)).1 = (Some task, None) ∧
    ID task = uuids rt (drawn rt) ∧
    Title task = create_Title req ∧
    Description task = create_Description req ∧
    Done task = false ∧
    tasks (repository.Create req (rt, r)).2.2 !! ID task = Some task ∧
    (∀ id, id ≠ ID task →
       tasks (repository.Create req (rt, r)).2.2 !! id = tasks r !! id) ∧
    (tasks r !! ID task = None →
       Count (repository.Create req (rt, r)).2.2 = Count r + 1) ∧
    (is_Some (tasks r !! ID task) →
       Count (repository.Create req (rt, r)).2.2 = Count r).
Proof.
  rewrite Create_eq. cbv zeta. cbn [fst snd tasks ID].
  eexists. split; [reflexivity|]. cbn [ID Title Description Done].
  repeat split.
  - by rewrite lookup_insert_eq.
  - intros id Hne. by rewrite lookup_insert_ne.
  - intros Hnew. unfold Count. cbn. rewrite map_size_insert_None by done. lia.
  - intros Hold. unfold Count. cbn. by rewrite map_size_insert_Some.
Qed.

(** An id that [uuid.New] hands out twice: the second [Create] replaces
    the record of the first. *)
Example Create_replaces_on_repeated_id :
  let rt := mkRuntime (λ _, 7) 0 (λ _, "same") 0 in
  let s1 := (repository.Create (mkCreateTaskRequest "first" "") (rt, NewTaskRepository)).2 in
  let s2 := (repository.Create (mkCreateTaskRequest "second" "") s1).2 in
  Count s1.2 = 1 ∧ Count s2.2 = 1 ∧
  Title <$> tasks s2.2 !! "same" = Some "second".
Proof. by vm_compute. Qed.

(** X3.  [Delete] of a record the store holds returns a nil error,
    removes that record and no other, and lowers the count by one; the
    id is then unknown: [GetByID] and a second [Delete] return
    not-found. *)
Theorem Delete_removes_one_record
    (id : string) (rt : Runtime) (r : TaskRepository) (task : Task) :
  tasks r !! id = Some task →
  (repository.Delete id (rt, r)).1 = None ∧
  (repository.Delete id (rt, r)).2.1 = rt ∧
  tasks (repository.Delete id (rt, r)).2.2 !! id = None ∧
  (∀ id', id' ≠ id →
     tasks (repository.Delete id (rt, r)).2.2 !! id' = tasks r !! id') ∧
  Count (repository.Delete id (rt, r)).2.2 = Count r - 1 ∧
  (repository.GetByID id (repository.Delete id (rt, r)).2).1
  = (None, not_found) ∧
  (repository.Delete id (repository.Delete id (rt, r)).2).1 = not_found.
Proof.
  intros Hid. rewrite Delete_eq, Hid. cbn [fst snd tasks].
  rewrite GetByID_eq, Delete_eq. cbn [fst snd tasks].
  rewrite lookup_delete_eq. repeat split; try done.
  - intros id' Hne. by rewrite lookup_delete_ne.
  - unfold Count. cbn. rewrite map_size_delete_Some by done.
    assert (size (tasks r) ≠ 0)%nat; [|lia].
    intros H0. apply map_size_empty_inv in H0. by rewrite H0 in Hid.
Qed.

Lemma Delete_removes_one_record_witness :
  let r := mkRepo {["a" := mkTask "a" "t" "" false 5 5]} in
  let rt := mkRuntime (λ _, 7) 0 (λ _, "a") 0 in
  Count (repository.Delete "a" (rt, r)).2.2 = Count r - 1 ∧
  (repository.Delete "a" (repository.Delete "a" (rt, r)).2).1 = not_found.
Proof.
  cbv zeta.
  destruct (Delete_removes_one_record "a"
              (mkRuntime (λ _, 7) 0 (λ _, "a") 0)
              (mkRepo {["a" := mkTask "a" "t" "" false 5 5]})
              (mkTask "a" "t" "" false 5 5))
    as (_ & _ & _ & _ & Hc & _ & Hd); [reflexivity|].
  split; [exact Hc|exact Hd].
Defined.

(** X4.  [Update] of a record the store holds stamps it with the reading
    of the clock, also when the request supplies no field: the record is
    then the old one with a new [UpdatedAt].  The same request applied a
    second time leaves title, description and done as the first time and
    moves [UpdatedAt] to the next reading. *)
Theorem Update_stamps_and_repeats
    (id : string) (req : UpdateTaskRequest) (rt : Runtime) (r : TaskRepository)
    (task : Task) :
  tasks r !! id = Some task →
  ∃ task1 task2 : Task,
    (repository.Update id req (rt, r)).1 = (Some task1, None) ∧
    (repository.Update id req (repository.Update id req (rt, r)).2).1
    = (Some task2, None) ∧
    UpdatedAt task1 = clock rt (ticks rt) ∧
    UpdatedAt task2 = clock rt (S (ticks rt)) ∧
    Title task2 = Title task1 ∧
    Description task2 = Description task1 ∧
    Done task2 = Done task1 ∧
    ID task2 = ID task ∧
    CreatedAt task2 = CreatedAt task ∧
    (update_Title req = "" → update_Description req = "" →
     update_Done req = None →
     task1 = mkTask (ID task) (Title task) (Description task) (Done task)
                    (CreatedAt task) (clock rt (ticks rt))).
Proof.
  intros Hid. rewrite Update_eq, Hid. cbv zeta. cbn [fst snd].
  rewrite Update_eq. cbn [fst snd tasks]. rewrite lookup_insert_eq. cbv zeta.
  eexists _, _. split; [reflexivity|]. split; [reflexivity|].
  unfold updated. cbn.
  destruct req as [title description done]. cbn.
  repeat split.
  - by case_bool_decide.
  - by case_bool_decide.
  - by destruct done.
  - intros -> -> ->. by rewrite !bool_decide_eq_false_2 by (by intros ?).
Qed.

Lemma Update_stamps_and_repeats_witness :
  ∃ task1 : Task,
    (repository.Update "a" (mkUpdateTaskRequest "" "" None)
       (sample.rt, mkRepo {["a" := mkTask "a" "t" "d" true 5 5]})).1
    = (Some task1, None) ∧
    task1 = mkTask "a" "t" "d" true 5 1000.
Proof.
  destruct (Update_stamps_and_repeats "a" (mkUpdateTaskRequest "" "" None)
              sample.rt (mkRepo {["a" := mkTask "a" "t" "d" true 5 5]})
              (mkTask "a" "t" "d" true 5 5))
    as (task1 & task2 & H1 & _ & _ & _ & _ & _ & _ & _ & _ & Hsame);
    [reflexivity|].
  exists task1. split; [exact H1|exact (Hsame eq_refl eq_refl eq_refl)].
Defined.

(* ------------------------------------------------------------------ *)
(** *** The repository, along a history *)

(** What every call keeps, every history keeps. *)
Lemma run_invariant (I : Sys → Prop) :
  (∀ op s, I s → I (step op s).2) →
  ∀ ops s, I s → I (run ops s).2.
Proof.
  intros Hstep ops. induction ops as [|op ops IH]; intros s Hs; [done|].
  rewrite run_cons. cbn [snd]. by apply IH, Hstep.
Qed.

Lemma step_state (op : Op) (rt : Runtime) (r : TaskRepository) :
  (step op (rt, r)).2 =
  match op with
  | OpCreate req => (repository.Create req (rt, r)).2
  | OpGetByID id => (rt, r)
  | OpList => (rt, r)
  | OpUpdate id req => (repository.Update id req (rt, r)).2
  | OpDelete id => (repository.Delete id (rt, r)).2
  end.
Proof.
  destruct op as [req|id| |id req|id]; cbn [step];
    rewrite ?(bind_ret_run _ snd); cbn [snd];
    rewrite ?GetByID_eq, ?List_eq; try done.
  by destruct (tasks r !! id).
Qed.

Lemma step_keyed_by_id (op : Op) (s : Sys) :
  keyed_by_id s.2 → keyed_by_id (step op s).2.2.
Proof.
  destruct s as [rt r]. cbn [snd]. intros Hk. rewrite step_state.
  unfold keyed_by_id in *.
  destruct op as [req|id| |id req|id]; try done.
  - rewrite Create_eq. cbn [fst snd tasks]. intros id t.
    destruct (decide (uuids rt (drawn rt) = id)) as [<-|Hne].
    + rewrite lookup_insert_eq. by intros [= <-].
    + rewrite lookup_insert_ne by done. apply Hk.
  - rewrite Update_eq. destruct (tasks r !! id) as [t0|] eqn:E; [|done].
    cbn [fst snd tasks]. intros id' t. destruct (decide (id = id')) as [<-|Hne].
    + rewrite lookup_insert_eq. intros [= <-]. cbn. by apply Hk.
    + rewrite lookup_insert_ne by done. apply Hk.
  - rewrite Delete_eq. destruct (tasks r !! id) as [t0|] eqn:E; [|done].
    cbn [fst snd tasks]. intros id' t. destruct (decide (id = id')) as [<-|Hne].
    + by rewrite lookup_delete_eq.
    + rewrite lookup_delete_ne by done. apply Hk.
Qed.

(** X5.  After any history of calls from the empty repository, every
    record is stored under its own id; so [List] returns each record of
    the store once: the ids of the records it returns are pairwise
    distinct, and a record is in the list exactly when the store holds
    it under its id. *)
Theorem List_returns_each_record_once (rt : Runtime) (ops : list Op) :
  keyed_by_id (run ops (rt, NewTaskRepository)).2.2 ∧
  NoDup (ID <$> (repository.List (run ops (rt, NewTaskRepository)).2).1.1) ∧
  (∀ t : Task,
     t ∈ (repository.List (run ops (rt, NewTaskRepository)).2).1.1
     ↔ tasks (run ops (rt, NewTaskRepository)).2.2 !! ID t = Some t).
Proof.
  assert (Hk : keyed_by_id (run ops (rt, NewTaskRepository)).2.2).
  { apply (run_invariant (λ s, keyed_by_id s.2)).
    - intros op s. apply step_keyed_by_id.
    - intros id t. cbn. by rewrite lookup_empty. }
  destruct (run ops (rt, NewTaskRepository)).2 as [rt' r'].
  cbn [snd] in *. rewrite List_eq. cbn [fst snd].
  split; [done|]. split.
  - replace (ID <$> (map_to_list (tasks r')).*2)
      with ((map_to_list (tasks r')).*1); [apply NoDup_fst_map_to_list|].
    rewrite <- list_fmap_compose. apply Forall_fmap_ext, Forall_forall.
    intros [id t] Hin%elem_of_map_to_list. cbn. symmetry. by apply Hk.
  - intros t. rewrite list_elem_of_fmap. split.
    + intros ([id t'] & -> & Hin%elem_of_map_to_list). cbn.
      by rewrite (Hk _ _ Hin).
    + intros Hin. exists (ID t, t). split; [done|].
      by apply elem_of_map_to_list.
Qed.


Lemma step_stamped_by_clock (op : Op) (s : Sys) :
  nondecreasing_clock s.1 ∧ stamped_by_clock s →
  nondecreasing_clock (step op s).2.1 ∧ stamped_by_clock (step op s).2.
Proof.
  destruct s as [rt r]. cbn [fst snd]. intros [Hclock Hs].
  rewrite step_state. unfold stamped_by_clock in *. cbn [fst snd] in Hs.
  destruct op as [req|id| |id req|id]; try done.
  - rewrite Create_eq. cbn [fst snd tasks]. split; [done|]. intros id t.
    destruct (decide (uuids rt (drawn rt) = id)) as [<-|Hne].
    + rewrite lookup_insert_eq. intros [= <-]. cbn. split; [lia|].
      exists (ticks rt). split; [lia|done].
    + rewrite lookup_insert_ne by done. intros Ht.
      destruct (Hs _ _ Ht) as (Hle & j & Hj & Hc). split; [done|].
      exists j. cbn. split; [lia|done].
  - rewrite Update_eq. destruct (tasks r !! id) as [t0|] eqn:E; [|done].
    cbn [fst snd tasks]. split; [done|]. intros id' t.
    destruct (Hs _ _ E) as (Hle0 & j0 & Hj0 & Hc0).
    destruct (decide (id = id')) as [<-|Hne].
    + rewrite lookup_insert_eq. intros [= <-]. cbn. split.
      * rewrite Hc0. apply Hclock. lia.
      * exists j0. split; [lia|done].
    + rewrite lookup_insert_ne by done. intros Ht.
      destruct (Hs _ _ Ht) as (Hle & j & Hj & Hc). split; [done|].
      exists j. cbn. split; [lia|done].
  - rewrite Delete_eq. destruct (tasks r !! id) as [t0|] eqn:E; [|done].
    cbn [fst snd tasks]. split; [done|]. intros id' t.
    destruct (decide (id = id')) as [<-|Hne].
    + by rewrite lookup_delete_eq.
    + rewrite lookup_delete_ne by done. apply Hs.
Qed.

(** X6.  On a clock that never goes back, after any history of calls
    from the empty repository, no record has an [UpdatedAt] before its
    [CreatedAt]. *)
Theorem UpdatedAt_not_before_CreatedAt (rt : Runtime) (ops : list Op) :
  nondecreasing_clock rt →
  stamped_in_order (run ops (rt, NewTaskRepository)).2.2.
Proof.
  intros Hclock.
  pose proof (run_invariant
                (λ s, nondecreasing_clock s.1 ∧ stamped_by_clock s)
                step_stamped_by_clock ops (rt, NewTaskRepository)) as H.
  destruct H as [_ H].
  - split; [done|]. intros id t. cbn. by rewrite lookup_empty.
  - intros id t Ht. by destruct (H id t Ht).
Qed.

Lemma sample_nondecreasing_clock : nondecreasing_clock sample.rt.
Proof. intros i j Hij. cbn. lia. Qed.

Lemma UpdatedAt_not_before_CreatedAt_witness :
  nondecreasing_clock sample.rt ∧
  stamped_in_order (run sample.ops (sample.rt, NewTaskRepository)).2.2.
Proof.
  split; [exact sample_nondecreasing_clock|].
  exact (UpdatedAt_not_before_CreatedAt sample.rt sample.ops
           sample_nondecreasing_clock).
Defined.

(** A clock that is set back between a [Create] and an [Update]: the
    record is then updated before it was created. *)
Example UpdatedAt_before_CreatedAt_on_a_clock_set_back :
  let rt := mkRuntime (λ k, 100 - Z.of_nat k) 0 sample.nth_uuid 0 in
  let s := (run [OpCreate (mkCreateTaskRequest "t" "");
                 OpUpdate "" (mkUpdateTaskRequest "" "" (Some true))]
              (rt, NewTaskRepository)).2 in
  (λ t, (CreatedAt t, UpdatedAt t)) <$> tasks s.2 !! "" = Some (100, 99).
Proof. by vm_compute. Qed.

(* ------------------------------------------------------------------ *)
(** *** The handlers: responses *)

Ltac status_arith :=
  unfold StatusOK, StatusCreated, StatusNoContent, StatusBadRequest,
    StatusNotFound, StatusInternalServerError in *; lia.

Ltac response_done :=
  unfold well_formed_response, data_body, error_body;
  cbn [StatusCode Header Encoded];
  eexists; split; [reflexivity|];
  first
    [ left; by repeat split
    | right; split; [status_arith|]; split; [by rewrite lookup_insert_eq|];
      first [ left; split; [status_arith|];
              first [left; by eexists | right; left; by eexists
                    | right; right; reflexivity]
            | right; split; [status_arith|]; by eexists ] ].

Ltac response_go :=
  unfold response;
  cbv [serve handler.List handler.Create handler.GetByID handler.Update
       handler.Delete handler.Health mbind mret State_bind State_ret bind ret
       get put modify zoom on_runtime on_repo on_w measure respondJSON
       respondError recordMetrics WriteHeader Header_Set Encode
       NewResponseWriter time_Now time_Since sys w measurements
       fst snd app];
  cbn beta iota.

Ltac response_case :=
  match goal with
  | |- context [Decode_CreateTaskRequest ?j ?b] =>
      destruct (Decode_CreateTaskRequest j b) eqn:?
  | |- context [Decode_UpdateTaskRequest ?j ?b] =>
      destruct (Decode_UpdateTaskRequest j b) eqn:?
  | |- context [Validate ?q] => destruct (Validate q) eqn:?
  | |- context [repo_List ?a ?x] =>
      destruct (repo_List a x) as [[? [?|]] ?] eqn:?
  | |- context [repo_Create ?a ?q ?x] =>
      destruct (repo_Create a q x) as [[? [?|]] ?] eqn:?
  | |- context [repo_GetByID ?a ?i ?x] =>
      destruct (repo_GetByID a i x) as [[? [?|]] ?] eqn:?
  | |- context [repo_Update ?a ?i ?q ?x] =>
      destruct (repo_Update a i q x) as [[? [?|]] ?] eqn:?
  | |- context [repo_Delete ?a ?i ?x] =>
      destruct (repo_Delete a i x) as [[?|] ?] eqn:?
  | |- context [errors_Is_ErrTaskNotFound ?e] =>
      destruct (errors_Is_ErrTaskNotFound e) eqn:?
  end; response_go.

(** X7.  Whatever the request, the state and the store's answer, every
    handler ([Health] included) writes a status; the response is JSON (content type
    application/json, one encoded value) except the 204 of a successful
    DELETE, which has neither header nor body; from status 400 on the
    body is the object with the single field [error], below 400 it is
    the record or the list of records. *)
Theorem responses_are_well_formed
    {R T : Type} (json : JSON) (repo : TaskStore R) (metrics : Metrics T)
    (r : Request) (s : Runtime * R) :
  well_formed_response (response (handler.List repo metrics) r s) ∧
  well_formed_response (response (handler.Create json repo metrics) r s) ∧
  well_formed_response (response (handler.GetByID repo metrics) r s) ∧
  well_formed_response (response (handler.Update json repo metrics) r s) ∧
  well_formed_response (response (handler.Delete repo metrics) r s) ∧
  well_formed_response (response handler.Health r s).
Proof.
  destruct s as [rt x].
  repeat split; response_go; repeat response_case; response_done.
Qed.

(** X8.  The status of GetByID, Update and Delete follows the store's
    answer, which is asked after one reading of the clock: the success
    status on a nil error, 404 when the error is [ErrTaskNotFound], and
    500 on any other error, another [TaskError] included. *)
Theorem status_follows_the_store
    {R T : Type} (json : JSON) (repo : TaskStore R) (metrics : Metrics T)
    (r : Request) (rt : Runtime) (x : R) :
  StatusCode (response (handler.GetByID repo metrics) r (rt, x))
  = Some (status_for StatusOK
            (repo_GetByID repo (URLParam_id r) (tick rt, x)).1.2) ∧
  StatusCode (response (handler.Delete repo metrics) r (rt, x))
  = Some (status_for StatusNoContent
            (repo_Delete repo (URLParam_id r) (tick rt, x)).1) ∧
  (∀ req, Decode_UpdateTaskRequest json (Body r) = Decoded req →
     StatusCode (response (handler.Update json repo metrics) r (rt, x))
     = Some (status_for StatusOK
               (repo_Update repo (URLParam_id r) req (tick rt, x)).1.2)) ∧
  status_for StatusOK (Some (ETask ErrTitleRequired))
  = StatusInternalServerError.
Proof.
  unfold status_for, tick. repeat split.
  - response_go. repeat response_case; cbn; by rewrite ?Heqb.
  - response_go. repeat response_case; cbn; by rewrite ?Heqb.
  - intros req Hreq. response_go. rewrite Hreq.
    repeat response_case; cbn; by rewrite ?Heqb.
Qed.

(* ------------------------------------------------------------------ *)
(** *** The handlers on the repository: what a request changes *)

Ltac repo_go :=
  unfold response, after, handler_of;
  cbv [serve handler.List handler.Create handler.GetByID handler.Update
       handler.Delete handler.Health mbind mret State_bind State_ret bind ret
       get put modify zoom on_runtime on_repo on_w measure respondJSON
       respondError recordMetrics WriteHeader Header_Set Encode
       NewResponseWriter time_Now time_Since sys w measurements StatusCode
       Header Encoded fst snd app repository_store repo_List repo_Create
       repo_GetByID repo_Update repo_Delete runtime store
       repository.Create repository.GetByID repository.List
       repository.Update repository.Delete repository.tasks];
  cbn beta iota.

(** The store after one request. *)
Lemma after_store {T} (json : JSON) (metrics : Metrics T)
    (c : Call) (r : Request) (s : Sys) :
  (after (handler_of json metrics c) r s).2 =
  match c with
  | CallCreate =>
      match Decode_CreateTaskRequest json (Body r) with
      | Decoded req =>
          if bool_decide (create_Title req = "") then s.2
          else mkRepo (<[uuids s.1 (drawn s.1) :=
                           mkTask (uuids s.1 (drawn s.1)) (create_Title req)
                             (create_Description req) false
                             (clock s.1 (S (ticks s.1)))
                             (clock s.1 (S (ticks s.1)))]> (tasks s.2))
      | DecodeError _ => s.2
      end
  | CallUpdate =>
      match Decode_UpdateTaskRequest json (Body r) with
      | Decoded req =>
          match tasks s.2 !! URLParam_id r with
          | Some task =>
              mkRepo (<[URLParam_id r :=
                          updated task req (clock s.1 (S (ticks s.1)))]>
                        (tasks s.2))
          | None => s.2
          end
      | DecodeError _ => s.2
      end
  | CallDelete =>
      match tasks s.2 !! URLParam_id r with
      | Some _ => mkRepo (delete (URLParam_id r) (tasks s.2))
      | None => s.2
      end
  | CallList | CallGetByID | CallHealth => s.2
  end.
Proof.
  destruct s as [rt [m]]. destruct c; repo_go; try done.
  - destruct (Decode_CreateTaskRequest json (Body r)) as [req|err]; [|done].
    unfold Validate. by destruct (bool_decide (create_Title req = "")).
  - by destruct (m !! URLParam_id r).
  - destruct (Decode_UpdateTaskRequest json (Body r)) as [req|err]; [|done].
    destruct (m !! URLParam_id r) as [task|]; [|done].
    unfold updated. cbn.
    by destruct (bool_decide (update_Title req ≠ "")),
         (bool_decide (update_Description req ≠ "")), (update_Done req).
  - by destruct (m !! URLParam_id r).
Qed.

(** X9.  A POST is accepted exactly when its body decodes to a request
    with a non-empty title, and is then answered 201.  Otherwise it is
    answered 400 with the error text "invalid request body" (the body
    does not decode) or "title is required" (the title is empty); the
    store is then as before and no id has been drawn from [uuid.New]. *)
Theorem Create_rejects_bad_input
    {T : Type} (json : JSON) (metrics : Metrics T) (r : Request) (s : Sys) :
  match Decode_CreateTaskRequest json (Body r) with
  | Decoded req =>
      if bool_decide (create_Title req = "") then
        StatusCode (response (handler.Create json repository_store metrics) r s)
        = Some StatusBadRequest ∧
        Encoded (response (handler.Create json repository_store metrics) r s)
        = [StringMap [("error", "title is required")]] ∧
        (after (handler.Create json repository_store metrics) r s).2 = s.2 ∧
        drawn (after (handler.Create json repository_store metrics) r s).1
        = drawn s.1
      else
        StatusCode (response (handler.Create json repository_store metrics) r s)
        = Some StatusCreated ∧
        drawn (after (handler.Create json repository_store metrics) r s).1
        = S (drawn s.1)
  | DecodeError _ =>
      StatusCode (response (handler.Create json repository_store metrics) r s)
      = Some StatusBadRequest ∧
      Encoded (response (handler.Create json repository_store metrics) r s)
      = [StringMap [("error", "invalid request body")]] ∧
      (after (handler.Create json repository_store metrics) r s).2 = s.2 ∧
      drawn (after (handler.Create json repository_store metrics) r s).1
      = drawn s.1
  end.
Proof.
  destruct s as [rt [m]]. repo_go.
  destruct (Decode_CreateTaskRequest json (Body r)) as [req|err]; [|done].
  unfold Validate. by destruct (bool_decide (create_Title req = "")).
Qed.

(** POST with a body that does not decode, with an empty title, and with
    a title, on the sample decoder. *)
Example Create_rejects_bad_input_sample :
  let h := handler.Create sample.json repository_store sample.metrics in
  let s := (sample.rt, NewTaskRepository) in
  let no_title : JSON :=
    mkJSON (λ _, Decoded (mkCreateTaskRequest "" "no title"))
           (Decode_UpdateTaskRequest sample.json) in
  Encoded (response h (mkRequest "" "") s)
  = [StringMap [("error", "invalid request body")]] ∧
  Encoded (response (handler.Create no_title repository_store sample.metrics)
             (mkRequest "" "x") s)
  = [StringMap [("error", "title is required")]] ∧
  StatusCode (response h (mkRequest "" "Learn Go") s) = Some 201.
Proof. by vm_compute. Qed.

(** X10.  A request that is answered with an error status (400 or more)
    has changed nothing in the store and drawn no id; and GET requests
    (the list, one record, the health check) never change the store,
    whatever they answer. *)
Theorem errors_and_reads_leave_the_store
    {T : Type} (json : JSON) (metrics : Metrics T)
    (c : Call) (r : Request) (s : Sys) :
  (∀ status : Z,
     StatusCode (response (handler_of json metrics c) r s) = Some status →
     400 ≤ status →
     (after (handler_of json metrics c) r s).2 = s.2 ∧
     drawn (after (handler_of json metrics c) r s).1 = drawn s.1) ∧
  (c = CallList ∨ c = CallGetByID ∨ c = CallHealth →
   (after (handler_of json metrics c) r s).2 = s.2).
Proof.
  split.
  - intros status. rewrite after_store. destruct s as [rt [m]].
    destruct c; repo_go.
    + done.
    + destruct (Decode_CreateTaskRequest json (Body r)) as [req|err]; [|done].
      unfold Validate. destruct (bool_decide (create_Title req = "")); [done|].
      intros [= <-]. status_arith.
    + by destruct (m !! URLParam_id r).
    + destruct (Decode_UpdateTaskRequest json (Body r)) as [req|err]; [|done].
      destruct (m !! URLParam_id r) as [task|]; [|done].
      intros [= <-]. status_arith.
    + destruct (m !! URLParam_id r) as [task|]; [|done].
      intros [= <-]. status_arith.
    + done.
  - rewrite after_store. by intros [->|[->| ->]].
Qed.

(** X11.  On the repository of the program the handlers GetByID, Update
    and Delete never take their internal-error branch either: the only
    error the repository returns is [ErrTaskNotFound], so no request is
    answered 500 or measured with status 500 by them. *)
Theorem GetByID_Update_Delete_never_fail
    {T : Type} (json : JSON) (metrics : Metrics T) :
  never_internal_error (handler.GetByID repository_store metrics) ∧
  never_internal_error (handler.Update json repository_store metrics) ∧
  never_internal_error (handler.Delete repository_store metrics).
Proof.
  split; [|split].
  - eapply records_once_never_internal_error; [apply GetByID_records_once|].
    intros r s. destruct (serve_GetByID metrics r s) as [_ H].
    destruct (tasks s.2 !! URLParam_id r); [destruct H as [H _]|];
      by rewrite H.
  - eapply records_once_never_internal_error;
      [apply (Update_records_once json)|].
    intros r s. pose proof (serve_Update json metrics r s) as H.
    destruct (Decode_UpdateTaskRequest json (Body r)) as [req|err].
    + destruct (tasks s.2 !! URLParam_id r); cbv zeta in H;
        by rewrite (proj1 H).
    + by rewrite (proj1 H).
  - eapply records_once_never_internal_error; [apply Delete_records_once|].
    intros r s. pose proof (serve_Delete metrics r s) as H.
    destruct (tasks s.2 !! URLParam_id r); by rewrite (proj1 H).
Qed.

(* ------------------------------------------------------------------ *)
(** *** The handlers on the repository, along a history of requests *)

Lemma after_keeps_titles_and_ids {T} (json : JSON) (metrics : Metrics T)
    (c : Call) (r : Request) (s : Sys) :
  titled s.2 ∧ keyed_by_id s.2 →
  titled (after (handler_of json metrics c) r s).2 ∧
  keyed_by_id (after (handler_of json metrics c) r s).2.
Proof.
  intros [Ht Hk]. rewrite after_store. unfold titled, keyed_by_id in *.
  destruct s as [rt r0]. cbn [fst snd] in *.
  destruct c; try done.
  - destruct (Decode_CreateTaskRequest json (Body r)) as [req|err]; [|done].
    case_bool_decide as Htitle; [done|]. cbn [tasks].
    split; intros id t; (destruct (decide (uuids rt (drawn rt) = id)) as [<-|Hne];
      [rewrite lookup_insert_eq; intros [= <-]
      |rewrite lookup_insert_ne by done; eauto]); by cbn.
  - destruct (Decode_UpdateTaskRequest json (Body r)) as [req|err]; [|done].
    destruct (tasks r0 !! URLParam_id r) as [task|] eqn:E; [|done].
    cbn [tasks].
    split; intros id t; (destruct (decide (URLParam_id r = id)) as [<-|Hne];
      [rewrite lookup_insert_eq; intros [= <-]
      |rewrite lookup_insert_ne by done; eauto]).
    + unfold updated. cbn. case_bool_decide; [done|]. by apply (Ht _ _ E).
    + cbn. by apply Hk.
  - destruct (tasks r0 !! URLParam_id r) as [task|] eqn:E; [|done].
    cbn [tasks].
    split; intros id t; (destruct (decide (URLParam_id r = id)) as [<-|Hne];
      [by rewrite lookup_delete_eq
      |rewrite lookup_delete_ne by done; eauto]).
Qed.

(** X12.  After any sequence of requests to the service, started on the
    empty repository, every stored record has a non-empty title and is
    stored under its own id: POST validates the title, and PUT cannot
    empty it nor change the id. *)
Theorem stored_records_have_titles
    {T : Type} (json : JSON) (metrics : Metrics T)
    (calls : list (Call * Request)) (rt : Runtime) :
  titled (serve_all json metrics calls (rt, NewTaskRepository)).2 ∧
  keyed_by_id (serve_all json metrics calls (rt, NewTaskRepository)).2.
Proof.
  assert (H : ∀ s : Sys, titled s.2 ∧ keyed_by_id s.2 →
              titled (serve_all json metrics calls s).2 ∧
              keyed_by_id (serve_all json metrics calls s).2).
  { induction calls as [|[c r] calls IH]; intros s Hs; [done|].
    cbn [serve_all foldl fst snd]. apply IH.
    by apply after_keeps_titles_and_ids. }
  apply H. split; intros id t; cbn; by rewrite lookup_empty.
Qed.

(** Five requests on the sample runtime: a POST without title is turned
    down, and the PUT with an empty title leaves the title. *)
Example stored_records_have_titles_sample :
  let no_title : JSON :=
    mkJSON (λ body, Decoded (mkCreateTaskRequest body ""))
           (λ body, Decoded (mkUpdateTaskRequest "" body None)) in
  let s := serve_all no_title sample.metrics
             [(CallCreate, mkRequest "" "");
              (CallCreate, mkRequest "" "Learn Go");
              (CallUpdate, mkRequest "" "with Rocq");
              (CallList, mkRequest "" "");
              (CallDelete, mkRequest "unknown" "")]
             (sample.rt, NewTaskRepository) in
  (map_to_list (tasks s.2)).*2
  = [mkTask "" "Learn Go" "with Rocq" false 600001000 1200001000].
Proof. by vm_compute. Qed.

(* ------------------------------------------------------------------ *)
(** *** Set-up of the instruments and the providers *)

(** X13.  [NewMetrics] returns the instruments exactly when no
    construction fails, and otherwise a nil [Metrics] with the error of
    the first construction that failed, in the order counter, histogram,
    gauge, wrapped in a message that names it; it never returns both a
    [Metrics] and an error, nor neither. *)
Theorem NewMetrics_reports_first_failure
    {St : Type} (meter : Meter) (f : St → Z) :
  ((∃ m, NewMetrics meter f = (Some m, None)) ↔ ¬ construction_fails meter) ∧
  (is_Some (NewMetrics meter f).1 ↔ (NewMetrics meter f).2 = None) ∧
  (∀ err, Int64Counter_error meter "http_requests_total" = Some err →
     NewMetrics meter f
     = (None, Some (Errorf "failed to create request counter" err))) ∧
  (∀ err, Int64Counter_error meter "http_requests_total" = None →
     Float64Histogram_error meter "http_request_duration_seconds" = Some err →
     NewMetrics meter f
     = (None, Some (Errorf "failed to create request duration histogram" err))) ∧
  (∀ err, Int64Counter_error meter "http_requests_total" = None →
     Float64Histogram_error meter "http_request_duration_seconds" = None →
     Int64ObservableGauge_error meter "tasks_total" = Some err →
     NewMetrics meter f
     = (None, Some (Errorf "failed to create tasks gauge" err))).
Proof.
  unfold construction_fails, NewMetrics, meter_Int64Counter,
    meter_Float64Histogram, meter_Int64ObservableGauge.
  destruct (Int64Counter_error meter _) as [e1|];
    [|destruct (Float64Histogram_error meter _) as [e2|];
      [|destruct (Int64ObservableGauge_error meter _) as [e3|]]];
    cbn; split_and!;
    try match goal with |- _ ↔ _ => split end;
    try done;
    try (by intros [? [=]]);
    try (by intros [=]);
    try (by intros ? [= <-]);
    try (by intros ? [=]);
    try (by intros ? ? [= <-]);
    try (by intros ? ? [=]);
    try (by intros ? ? ? [= <-]);
    try (by intros _; eexists);
    try (intros H; exfalso; apply H;
         first [by left; eexists | by right; left; eexists
               | by right; right; eexists]);
    try (by intros _ [[? [=]]|[[? [=]]|[? [=]]]]).
Qed.

(** The message when the meter refuses the histogram. *)
Example NewMetrics_reports_first_failure_sample :
  NewMetrics (S := TaskRepository)
    (mkMeter (λ _, None) (λ _, Some (EOther "duplicate"))
       (λ _, Some (EOther "also refused")))
    Count
  = (None,
     Some (EOther "failed to create request duration histogram: duplicate")).
Proof. reflexivity. Qed.

(** X14.  [InitMeterProvider] and [InitLoggerProvider] return a provider
    (and, for the logs, a logger) with a nil error exactly when the gRPC
    client, the exporter and the resource are all made without error, and
    nil values with a non-nil error otherwise, never both and never
    neither.  The meter provider then reads every 10 seconds, and the
    providers and the logger carry the service name and the environment
    they were given. *)
Theorem providers_or_error
    (env : Setup) (serviceName otlpEndpoint environment : string) :
  let mp := InitMeterProvider env serviceName otlpEndpoint environment in
  let lp := InitLoggerProvider env serviceName otlpEndpoint environment in
  (mp = (Some (mkMeterProvider (10 * Second) serviceName environment), None) ∨
   ∃ err, mp = (None, Some err)) ∧
  (mp.2 = None ↔
   grpc_NewClient env otlpEndpoint = None ∧ otlpmetricgrpc_New env = None ∧
   resource_Merge env serviceName environment = None) ∧
  (lp = (Some (mkLoggerProvider serviceName environment),
         Some (mkLogger serviceName), None) ∨
   ∃ err, lp = (None, None, Some err)) ∧
  (lp.2 = None ↔
   grpc_NewClient env otlpEndpoint = None ∧ otlploggrpc_New env = None ∧
   resource_Merge env serviceName environment = None).
Proof.
  cbv zeta. unfold InitMeterProvider, InitLoggerProvider.
  destruct (grpc_NewClient env otlpEndpoint),
    (otlpmetricgrpc_New env), (otlploggrpc_New env),
    (resource_Merge env serviceName environment); cbn;
    repeat split; try done; try (by left); try (by right; eexists);
    try (by intros (? & ? & ?)).
Qed.

(* ------------------------------------------------------------------ *)
(** *** [main]: how a run ends *)

Ltac world_facts :=
  rewrite ?elem_of_cons, ?elem_of_nil;
  intuition (try discriminate; try congruence).

(** X15.  [main] returns exactly when the four steps of start-up
    succeed, the server does not fail and a signal arrives; it serves on
    for ever exactly when start-up succeeds, the server does not fail and
    no signal arrives; in every other case it leaves through [os.Exit],
    and always with code 1.  The server starts to listen exactly when
    start-up succeeds: a failure of any provider or of the instruments is
    fatal before the first request.  A failure of [server.Shutdown] is
    logged and does not keep [main] from returning. *)
Theorem main_ends (world : World) :
  ((main world).1 = Running tt ↔
   startup_ok world ∧ ListenAndServe_error world = None ∧
   signalled world = true) ∧
  ((main world).1 = Blocked ↔
   startup_ok world ∧ ListenAndServe_error world = None ∧
   signalled world = false) ∧
  ((main world).1 = Exited 1 ↔
   ¬ startup_ok world ∨ ListenAndServe_error world ≠ None) ∧
  (∀ code : Z, (main world).1 = Exited code → code = 1) ∧
  (ListenAndServe ∈ (main world).2 ↔ startup_ok world).
Proof.
  unfold startup_ok. cbv zeta. main_go. repeat main_case; cbn [fst snd];
    split_and!; world_facts.
Qed.

(** A server that is shut down by force still returns from [main]. *)
Example main_returns_after_forced_shutdown :
  main (mkWorld (λ _, "") sample.setup None (λ _, sample.meter) None true
          (Some (EOther "context deadline exceeded")) (λ _, None))
  = (Running tt,
     [StartupLog "INFO" "starting application";
      Init Tracer; Init Meter_; Init Logger_;
      Log "INFO" "server listening"; ListenAndServe;
      Log "INFO" "shutting down server..."; ServerShutdown;
      Log "ERROR" "server forced to shutdown";
      Log "INFO" "server stopped";
      Cancel; Shutdown Logger_; Shutdown Meter_; Shutdown Tracer]).
Proof. reflexivity. Qed.

(** The meter refuses the histogram: the tracer provider was
    initialised, and is not shut down. *)
Lemma no_shutdown_without_return_witness :
  (main sample.world_without_histogram).1 ≠ Running tt ∧
  Init Tracer ∈ (main sample.world_without_histogram).2 ∧
  shutdowns (main sample.world_without_histogram).2 = [].
Proof.
  split; [discriminate|].
  split; [vm_compute; apply list_elem_of_further, list_elem_of_here|].
  apply (no_shutdown_without_return sample.world_without_histogram).
  discriminate.
Defined.

Lemma main_body_emits_no_Shutdown (world : World) :
  Forall (λ e, ¬ is_Shutdown e) (trace (main_body world (mkFrame [] [])).2).
Proof.
  main_go. repeat main_case; repeat constructor; by intros [].
Qed.

Lemma run_deferred_emits_no_Log (world : World) (d : Deferred) :
  Forall (λ e, ¬ is_Log e) (run_deferred world d).
Proof.
  destruct d as [p|]; cbn; [destruct (provider_Shutdown_error world p)|];
    repeat constructor; by intros [].
Qed.

(** X17.  Nothing is logged through the OpenTelemetry logger once the
    providers are being shut down: the run of [main] splits into a part
    without any provider shutdown and a part without any record of that
    logger.  When [main] returns, a provider whose shutdown fails is
    reported through the start-up logger, on standard output. *)
Theorem no_log_after_shutdown (world : World) :
  (∃ before since : list Event,
     (main world).2 = before ++ since ∧
     Forall (λ e, ¬ is_Shutdown e) before ∧
     Forall (λ e, ¬ is_Log e) since) ∧
  (∀ p : Provider,
     (main world).1 = Running tt →
     is_Some (provider_Shutdown_error world p) →
     StartupLog "ERROR" ("failed to shutdown " +:+ provider_name p +:+ " provider")
     ∈ (main world).2).
Proof.
  split.
  - pose proof (main_body_emits_no_Shutdown world) as Hbody.
    unfold main.
    destruct (main_body world (mkFrame [] [])) as [[[]|code|] f]; cbn [snd] in *.
    + eexists _, _. split; [reflexivity|]. split; [done|].
      apply Forall_concat, Forall_fmap, Forall_forall. intros d _.
      apply run_deferred_emits_no_Log.
    + exists (trace f), []. by rewrite app_nil_r.
    + exists (trace f), []. by rewrite app_nil_r.
  - intros p. main_go. repeat main_case; try discriminate.
    all: intros _ [err Herr]; cbn;
      destruct p; rewrite Herr; cbn;
      repeat first [apply list_elem_of_here | apply list_elem_of_further];
      destruct (provider_Shutdown_error world Logger_);
      repeat first [apply list_elem_of_here | apply list_elem_of_further];
      destruct (provider_Shutdown_error world Meter_);
      repeat first [apply list_elem_of_here | apply list_elem_of_further].
Qed.

(* ------------------------------------------------------------------ *)
(** *** The list of records *)

(** X18.  GET on the collection is always answered 200 with the records
    of the store: as many as [Count] says, every stored record among
    them, and the empty list (not a null value) on the empty store; the
    store is left as it was. *)
Theorem List_handler_lists_the_store
    {T : Type} (metrics : Metrics T) (r : Request) (s : Sys) :
  ∃ l : list Task,
    StatusCode (response (handler.List repository_store metrics) r s)
    = Some StatusOK ∧
    Encoded (response (handler.List repository_store metrics) r s)
    = [Tasks l] ∧
    Z.of_nat (length l) = Count s.2 ∧
    (∀ id t, tasks s.2 !! id = Some t → t ∈ l) ∧
    (tasks s.2 = ∅ → l = []) ∧
    (after (handler.List repository_store metrics) r s).2 = s.2.
Proof.
  destruct (serve_List metrics r s) as [Hst Henc].
  exists (map_to_list (tasks s.2)).*2. split; [done|]. split; [done|].
  split; [unfold Count; by rewrite length_fmap, length_map_to_list|].
  split; [|split].
  - intros id t Ht. apply list_elem_of_fmap. exists (id, t).
    split; [done|]. by apply elem_of_map_to_list.
  - intros ->. by rewrite map_to_list_empty.
  - destruct s as [rt [m]]. by repo_go.
Qed.
